(** * OFFLINE-RAG: indexing and retrieval pipeline

    A shallow embedding of [app/indexer.py], [app/config.py], the
    handlers of [app/main.py], [app/chat_store.py], [app/ollama.py] and
    the loader of [offline_rag.py], with the properties of the
    specification stated and proved over it.

    Conventions of the embedding.
    - Text is a [string]; one [ascii] stands for one character (code points
      0..255), so [String.length] is Python's [len].
    - A path is the string [str(p)] produces; the file system is a finite map
      from such strings to nodes.
    - Every file carries what the readers used by the program return on it
      (UTF-8 decoding, latin-1 decoding, PDF extraction): the byte level is
      not modelled.
    - An entry of the file system can be one whose [stat] is refused
      ([NoAccess]): [is_file] raises on it, as [Path.is_file] does.
    - The persisted manifest and the persisted collections are fields of
      their own in the world: the index directory is taken to lie outside
      every data root, as in the default configuration ([ROOT/data] and
      [ROOT/chroma_db]). The statements on what a build leaves carry this
      as a premise.
    - [print] and logging calls are dropped, and so are the token check, the
      prompt assembly and the call to the generation collaborator in
      [query].
    - The embedding object ([SentenceTransformerEmbeddings()]) is a
      capability handed to the store; constructing it is not a failure
      point of the model, and neither are [Chroma.from_documents] and the
      writing of the manifest once a build has reached them: a build
      fails in the extraction pass, for want of Documents, or in the
      splitter. *)

From Stdlib Require Import String Ascii ZArith QArith List DecimalString.
From stdpp Require Import gmap strings list fin_maps sorting.

Local Open Scope string_scope.
Local Open Scope Z_scope.

(** ** Exceptions and results *)

(** A Python exception: its class name and message, or the [RuntimeError]
    whose message is formatted with a list of the exceptions caught before. *)
#[warnings="-register-all"]
Inductive Exc : Type :=
| Exception (cls msg : string)
| RuntimeErrorWith (msg : string) (errors : list Exc).

Inductive Result (A : Type) : Type :=
| Ok (a : A)
| Raise (e : Exc).
Arguments Ok {A} a.
Arguments Raise {A} e.

Global Instance Result_ret : MRet Result := λ A a, Ok a.
Global Instance Result_bind : MBind Result := λ A B f r,
  match r with Ok a => f a | Raise e => Raise e end.

(** [try: body / except Exception as e: handler e] *)
Definition try_except {A} (body : Result A) (handler : Exc → Result A) : Result A :=
  match body with Ok a => Ok a | Raise e => handler e end.

(** ** Python built-ins on text *)

Module Py.

Definition newline : string := String (ascii_of_nat 10) "".

(** [str.isspace] on the characters below 256. *)
Definition isspace (c : ascii) : bool :=
  let n := nat_of_ascii c in
  ((9 <=? n)%nat && (n <=? 13)%nat) || ((28 <=? n)%nat && (n <=? 32)%nat)
  || (n =? 133)%nat || (n =? 160)%nat.

Fixpoint lstrip (s : string) : string :=
  match s with
  | String c s' => if isspace c then lstrip s' else s
  | EmptyString => EmptyString
  end.

Definition rstrip (s : string) : string := String.rev (lstrip (String.rev s)).

(** [s.strip()] *)
Definition strip (s : string) : string := rstrip (lstrip s).

Definition lower_char (c : ascii) : ascii :=
  let n := nat_of_ascii c in
  if ((65 <=? n)%nat && (n <=? 90)%nat)
     || ((192 <=? n)%nat && (n <=? 222)%nat && negb (n =? 215)%nat)
  then ascii_of_nat (n + 32) else c.

(** [s.lower()] *)
Fixpoint lower (s : string) : string :=
  match s with
  | String c s' => String (lower_char c) (lower s')
  | EmptyString => EmptyString
  end.

(** [s.rfind(c)], [None] for -1. *)
Fixpoint rfind (c : ascii) (s : string) : option nat :=
  match s with
  | EmptyString => None
  | String a s' =>
      match rfind c s' with
      | Some i => Some (S i)
      | None => if Ascii.eqb a c then Some 0%nat else None
      end
  end.

(** [s.split(sep)] for a one-character separator. *)
Fixpoint split (sep : ascii) (s : string) : list string :=
  match s with
  | EmptyString => [EmptyString]
  | String a s' =>
      if Ascii.eqb a sep then EmptyString :: split sep s'
      else match split sep s' with
           | h :: t => String a h :: t
           | [] => [String a EmptyString]
           end
  end.

(** [s.replace(a, b)] for one-character [a] and [b]. *)
Fixpoint replace (a b : ascii) (s : string) : string :=
  match s with
  | String c s' => String (if Ascii.eqb c a then b else c) (replace a b s')
  | EmptyString => EmptyString
  end.

(** [sep.join(l)] *)
Definition join (sep : string) (l : list string) : string := String.concat sep l.

(** [int(x)] on a float: truncation towards zero. *)
Definition int_of_float (q : Q) : Z := Z.quot (Qnum q) (Z.pos (Qden q)).

(** [sorted] on strings. *)
Definition sorted (l : list string) : list string := merge_sort String.le l.

End Py.

(** ** pathlib *)

Module Path.

(** The components of a POSIX path: empty and [.] components are dropped. *)
Definition parts (p : string) : list string :=
  filter (λ c, c ≠ "" ∧ c ≠ ".") (Py.split "/" p).

(** [Path(p).name] *)
Definition name (p : string) : string := List.last (parts p) "".

(** [Path(p).suffix] *)
Definition suffix (p : string) : string :=
  let n := name p in
  match Py.rfind "." n with
  | Some i =>
      if (0 <? i)%nat && (i <? String.length n - 1)%nat
      then String.substring i (String.length n - i) n
      else ""
  | None => ""
  end.

(** [p] is [root] followed by a separator and a non-empty relative path:
    the paths [Path(root).rglob("*")] can yield. *)
Definition under (root p : string) : bool :=
  String.prefix (root ++ "/") p && (String.length root + 1 <? String.length p)%nat.

Fixpoint parts_leb (a b : list string) : bool :=
  match a, b with
  | [], _ => true
  | _ :: _, [] => false
  | x :: a', y :: b' =>
      if String.eqb x y then parts_leb a' b' else String.leb x y
  end.

(** The order of [Path] objects: component by component. *)
Definition le (p q : string) : Prop :=
  Is_true (parts_leb (Py.split "/" p) (Py.split "/" q)).

Global Instance le_dec : RelDecision le.
Proof. intros p q. unfold le. apply _. Defined.

End Path.

(** ** The file system *)

Inductive PageRead : Type :=
| PageText (t : option string)     (* [page.extract_text()] returned [t] *)
| PageRaises (msg : string).       (* it raised [e] with [str(e) = msg] *)

Inductive PdfRead : Type :=
| PdfOpenRaises (msg : string)     (* [PdfReader(path)] raised *)
| PdfPages (pages : list PageRead).

Record File : Type := mkFile {
  st_mtime : Q;                    (* [p.stat().st_mtime], a float *)
  readable : bool;                 (* [open] succeeds *)
  as_utf8 : option string;         (* the bytes decoded as UTF-8, if valid *)
  as_latin1 : string;              (* the bytes decoded as latin-1 *)
  as_pdf : PdfRead                 (* what pypdf does on the file *)
}.

(** [NoAccess] is an entry whose [stat] raises [PermissionError]: its
    directory can be listed, so [rglob] yields it, but not searched. *)
Inductive Node : Type :=
| Dir
| Reg (f : File)
| NoAccess.

(** [p.is_file()]: a refused [stat] is re-raised. *)
Definition is_file (n : Node) : Result bool :=
  match n with
  | Reg _ => Ok true
  | Dir => Ok false
  | NoAccess => Raise (Exception "PermissionError" "Permission denied")
  end.

(** Every entry below the root can be examined. *)
Definition accessible (fs : gmap string Node) (root : string) : Prop :=
  ∀ p, Path.under root p = true → fs !! p ≠ Some NoAccess.

(** [Path(root).rglob("*")]: every node below [root], with its path. *)
Definition rglob (fs : gmap string Node) (root : string) : list (string * Node) :=
  filter (λ x, Is_true (Path.under root x.1)) (map_to_list fs).

(** [sorted(Path(root).rglob("*"))] *)
Definition rglob_sorted (fs : gmap string Node) (root : string) : list (string * Node) :=
  merge_sort (λ x y, Path.le x.1 y.1) (rglob fs root).

Inductive Encoding := Utf8 | Latin1.

(** [p.read_text(encoding=enc)] *)
Definition read_text (f : File) (enc : Encoding) : Result string :=
  if readable f then
    match enc with
    | Utf8 =>
        match as_utf8 f with
        | Some t => Ok t
        | None => Raise (Exception "UnicodeDecodeError" "invalid start byte")
        end
    | Latin1 => Ok (as_latin1 f)
    end
  else Raise (Exception "PermissionError" "Permission denied").

(** ** Content extractor ([load_local_documents]) *)

Record Document : Type := mkDocument {
  page_content : string;
  metadata : gmap string string
}.

(** [str(e)] *)
Definition Exc_str (e : Exc) : string :=
  match e with
  | Exception _ msg => msg
  | RuntimeErrorWith msg _ => msg
  end.


Section Extractor.

(** The module-level [PdfReader]: [false] stands for [None], the value it
    takes when [pypdf] cannot be imported. *)
Variable PdfReader : bool.

(** The loop over [reader.pages]. *)
Fixpoint extract_pages (pages : list PageRead) (acc : list string) : Result (list string) :=
  match pages with
  | [] => Ok acc
  | PageText t :: rest => extract_pages rest (acc ++ [default "" t])
  | PageRaises msg :: _ => Raise (Exception "Exception" msg)
  end.

(** What one pass of the loop body does after the text is known. *)
Inductive Step : Type :=
| Skip                       (* [continue] *)
| Emit (text : string).      (* reach [docs.append] *)

(** The body of the [try] for a PDF. *)
Definition pdf_try (f : File) : Result Step :=
  pages ← match as_pdf f with
          | PdfOpenRaises msg => Raise (Exception "PdfReadError" msg)
          | PdfPages ps => extract_pages ps []
          end;
  let text := Py.join (Py.newline ++ Py.newline) pages in
  if (String.length (Py.strip text) <? 100)%nat then Ok Skip else Ok (Emit text).

Definition load_pdf (p : string) (f : File) : Result Step :=
  if PdfReader then
    try_except (pdf_try f)
      (λ e, Ok (Emit ("[Failed to extract PDF " ++ p ++ ": " ++ Exc_str e ++ "]")))
  else Ok (Emit ("[pypdf not installed; cannot extract PDF " ++ p ++ "]")).

Definition load_text (f : File) : Result string :=
  try_except (read_text f Utf8) (λ _, read_text f Latin1).

Definition source_document (text p : string) : Document :=
  {| page_content := text; metadata := {["source" := p]} |}.

(** One iteration: [None] when nothing is appended. *)
Definition load_file (p : string) (n : Node) : Result (option Document) :=
  regular ← is_file n;
  match n with
  | Reg f =>
      let suffix := Py.lower (Path.suffix p) in
      if bool_decide (suffix ∈ [".txt"; ".md"; ".html"]) then
        text ← load_text f; Ok (Some (source_document text p))
      else if bool_decide (suffix = ".pdf") then
        step ← load_pdf p f;
        match step with
        | Skip => Ok None
        | Emit text => Ok (Some (source_document text p))
        end
      else Ok None
  | _ => Ok None                   (* [continue] *)
  end.

(** What an entry contributes to the document list. *)
Definition emitted (x : string * Node) : option Document :=
  match load_file x.1 x.2 with
  | Ok o => o
  | Raise _ => None
  end.

Fixpoint load_loop (entries : list (string * Node)) (docs : list Document)
  : Result (list Document) :=
  match entries with
  | [] => Ok docs
  | (p, n) :: rest =>
      d ← load_file p n;
      load_loop rest (match d with Some d => docs ++ [d] | None => docs end)
  end.

Definition load_local_documents (fs : gmap string Node) (data_dir : string)
  : Result (list Document) :=
  load_loop (rglob_sorted fs data_dir) [].

End Extractor.

(** ** Manifest tracker *)

(** The loop of [_compute_manifest_from_files]. *)
Fixpoint manifest_loop (entries : list (string * Node)) (manifest : gmap string Z)
  : Result (gmap string Z) :=
  match entries with
  | [] => Ok manifest
  | (p, n) :: rest =>
      regular ← is_file n;
      match n with
      | Reg f => manifest_loop rest (<[p := Py.int_of_float (st_mtime f)]> manifest)
      | _ => manifest_loop rest manifest
      end
  end.

Definition _compute_manifest_from_files (fs : gmap string Node) (data_dir : string)
  : Result (gmap string Z) :=
  manifest_loop (rglob_sorted fs data_dir) ∅.

(** A member of a JSON object as [json.load] returns it, as far as [==]
    with an integer can tell. *)
Inductive JsonMember : Type :=
| JmInt (z : Z)
| JmFloat (q : Q)
| JmBool (b : bool)
| JmOther.                         (* [None], a string, a list, an object *)

(** A JSON value as [json.load] returns it. *)
Inductive Json : Type :=
| JsonObject (members : gmap string JsonMember)
| JsonOther.                       (* anything that is not an object *)

(** What is found at [MANIFEST_PATH]. [MfJson m] is a JSON object of
    integers, the only shape [_write_manifest] produces; [MfForeign j] is
    any other JSON text, as another program or an editor may leave it. *)
Inductive ManifestFile : Type :=
| MfMissing
| MfUnreadable
| MfCorrupt                        (* not parseable as JSON *)
| MfJson (m : gmap string Z)
| MfForeign (j : Json).

(** [v == z] for a member [v] and an integer [z]: a float equals the
    integer of its value, [True] equals 1 and [False] equals 0. *)
Definition member_eqb (v : JsonMember) (z : Z) : bool :=
  match v with
  | JmInt z' => bool_decide (z' = z)
  | JmFloat q => Qeq_bool q (inject_Z z)
  | JmBool b => bool_decide (z = if b then 1 else 0)
  | JmOther => false
  end.

(** [old == new] for what was loaded and a computed manifest. *)
Definition json_eqb (old : Json) (new : gmap string Z) : bool :=
  match old with
  | JsonObject members =>
      bool_decide (dom members = dom new)
      && bool_decide (map_Forall (λ k v, member_eqb v (default 0 (new !! k)) = true) members)
  | JsonOther => false
  end.

(** The world the indexer runs in. [manifest_file] is what lies at
    [MANIFEST_PATH]; [chroma] holds the persisted collections by directory,
    and an index directory exists exactly when it has an entry. *)
Record World : Type := mkWorld {
  fs : gmap string Node;
  manifest_file : ManifestFile;
  chroma : gmap string (list Document)
}.

(** [with open(MANIFEST_PATH) as f: return json.load(f)] *)
Definition open_json_load (mf : ManifestFile) : Result Json :=
  match mf with
  | MfMissing => Raise (Exception "FileNotFoundError" "No such file or directory")
  | MfUnreadable => Raise (Exception "PermissionError" "Permission denied")
  | MfCorrupt => Raise (Exception "JSONDecodeError" "Expecting value")
  | MfJson m => Ok (JsonObject (JmInt <$> m))
  | MfForeign j => Ok j
  end.

Definition _read_manifest (w : World) : Result Json :=
  try_except (open_json_load (manifest_file w)) (λ _, Ok (JsonObject ∅)).

Definition needs_reindex (data_dir : string) (w : World) : Result bool :=
  old ← _read_manifest w;
  new ← _compute_manifest_from_files (fs w) data_dir;
  Ok (negb (json_eqb old new)).

(** ** Configuration ([app/config.py]) *)

Record Config : Type := mkConfig {
  DATA_DIR : string;
  CHROMA_DIR : string;
  CHUNK_SIZE : Z;
  CHUNK_OVERLAP : Z
}.

Definition MANIFEST_PATH (cfg : Config) : string := CHROMA_DIR cfg ++ "/manifest.json".

Section ConfigModule.

(** Python's [int] on a [str]; [None] when it raises [ValueError]. *)
Variable int_of_str : string → option Z.

(** [int(os.getenv(name, default))] with an integer default. *)
Definition int_getenv (value : option string) (default : Z) : Result Z :=
  match value with
  | None => Ok default
  | Some s =>
      match int_of_str s with
      | Some z => Ok z
      | None => Raise (Exception "ValueError" ("invalid literal for int() with base 10: " ++ s))
      end
  end.

(** Importing [app.config] with project root [ROOT] under the
    environment [getenv]. *)
Definition load_config (ROOT : string) (getenv : string → option string) : Result Config :=
  let data_dir := default (ROOT ++ "/data") (getenv "RAG_DATA_DIR") in
  let chroma_dir := default (ROOT ++ "/chroma_db") (getenv "RAG_CHROMA_DIR") in
  chunk_size ← int_getenv (getenv "RAG_CHUNK_SIZE") 1000;
  chunk_overlap ← int_getenv (getenv "RAG_CHUNK_OVERLAP") 200;
  Ok {| DATA_DIR := data_dir; CHROMA_DIR := chroma_dir;
        CHUNK_SIZE := chunk_size; CHUNK_OVERLAP := chunk_overlap |}.

End ConfigModule.

(** ** Index manager ([build_index], [load_or_build]) *)

(** How the embedding object is handed to the [Chroma] constructor. *)
Inductive Binding : Type :=
| ByEmbeddingFunction            (* [embedding_function=embeddings] *)
| ByEmbedding                    (* [embedding=embeddings] *)
| NoEmbedding.                   (* no embedding argument *)

(** A vector-store handle: the directory it serves and whether it can embed
    new queries. *)
Record Handle : Type := mkHandle {
  handle_dir : string;
  can_embed : bool
}.

(** Modelled from the spec: langchain's [split_documents] is a third-party
    call; each chunk is a slice of its document's content and inherits its
    metadata (spec 3, Chunk: source inherited from the parent Document). *)
Definition split_documents (split_text : string → list string) (docs : list Document)
  : list Document :=
  d ← docs;
  (λ c, {| page_content := c; metadata := metadata d |}) <$> split_text (page_content d).

(** What the third-party store does with a collection it finds at the
    directory it is asked to write. *)
Inductive StorePolicy : Type :=
| Recreate                       (* the collection is written anew *)
| Add.                           (* the documents join the ones found *)

Definition stored (policy : StorePolicy) (found documents : list Document)
  : list Document :=
  match policy with
  | Recreate => documents
  | Add => (found ++ documents)%list
  end.

(** Modelled from the spec: [Chroma.from_documents] is a third-party call.
    Under [Recreate] it writes a brand-new collection at
    [persist_directory], replacing any existing one (spec 4.4, and the
    comment in [build_index]); [Add] stands for a library that adds the
    documents to the collection already there. *)
Definition Chroma_from_documents (policy : StorePolicy) (documents : list Document)
    (persist_directory : string) (w : World) : Handle * World :=
  ({| handle_dir := persist_directory; can_embed := true |},
   {| fs := fs w; manifest_file := manifest_file w;
      chroma := <[persist_directory :=
                    stored policy (default [] (chroma w !! persist_directory)) documents]>
                  (chroma w) |}).

(** [path.exists()] for an index directory. *)
Definition dir_exists (w : World) (dir : string) : bool :=
  bool_decide (is_Some (chroma w !! dir)).

(** [path.mkdir(parents=True, exist_ok=True)] for an index directory. *)
Definition mkdir (dir : string) (w : World) : World :=
  if dir_exists w dir then w
  else {| fs := fs w; manifest_file := manifest_file w;
          chroma := <[dir := []]> (chroma w) |}.

(** The (source, content) pairs of a list of chunks. *)
Definition pairs_of (chunks : list Document) : gset (option string * string) :=
  list_to_set ((λ d, (metadata d !! "source", page_content d)) <$> chunks).

(** The (source, content) pairs held by the collection at a directory. *)
Definition index_pairs (w : World) (dir : string) : gset (option string * string) :=
  pairs_of (default [] (chroma w !! dir)).

(** A world whose files were replaced, all else kept. *)
Definition with_fs (w : World) (files : gmap string Node) : World :=
  {| fs := files; manifest_file := manifest_file w; chroma := chroma w |}.

Section Indexer.

Variable cfg : Config.

(** How the installed store library treats the collection it finds. *)
Variable policy : StorePolicy.
Variable PdfReader : bool.

(** The constructor of the third-party splitter: it raises, or gives the
    function cutting one text into chunks. *)
Variable RecursiveCharacterTextSplitter : Z → Z → Result (string → list string).

(** The third-party [Chroma] constructor on an existing directory: what
    it gives depends on the installed version and on the files found. *)
Variable Chroma : World → string → Binding → Result Handle.

Definition _split_documents (docs : list Document) : Result (list Document) :=
  text_splitter ← RecursiveCharacterTextSplitter (CHUNK_SIZE cfg) (CHUNK_OVERLAP cfg);
  Ok (split_documents text_splitter docs).

Definition _write_manifest (manifest : gmap string Z) (w : World) : World :=
  let w := mkdir (CHROMA_DIR cfg) w in
  {| fs := fs w; manifest_file := MfJson manifest; chroma := chroma w |}.

(** The world a build leaves once the store has been written: with the
    new manifest, or without it when computing it raised. *)
Definition built (splits : list Document) (data_dir persist_directory : string)
    (w : World) : World :=
  let w := (Chroma_from_documents policy splits persist_directory w).2 in
  match _compute_manifest_from_files (fs w) data_dir with
  | Ok manifest => _write_manifest manifest w
  | Raise _ => w
  end.

(** [build_index]: the result and the world it leaves. *)
Definition build_index (data_dir persist_directory : string) (w : World)
  : Result Handle * World :=
  match load_local_documents PdfReader (fs w) data_dir with
  | Raise e => (Raise e, w)
  | Ok docs =>
      if bool_decide (docs = []) then
        (Raise (Exception "RuntimeError"
                  "No documents found to index. Add files in ./data/ and try again."), w)
      else
        match _split_documents docs with
        | Raise e => (Raise e, w)
        | Ok splits =>
            let '(vector_store, w) :=
              Chroma_from_documents policy splits persist_directory w in
            match _compute_manifest_from_files (fs w) data_dir with
            | Raise e => (Raise e, w)
            | Ok manifest =>
                let w := _write_manifest manifest w in
                (Ok vector_store, w)
            end
        end
  end.

(** One [try: return Chroma(...) / except: tried_errors.append(e)]. *)
Definition try_open (w : World) (dir : string) (b : Binding) (tried_errors : list Exc)
  : Handle + list Exc :=
  match Chroma w dir b with
  | Ok vector_store => inl vector_store
  | Raise e => inr (tried_errors ++ [e])%list
  end.

Definition load_or_build (data_dir persist_directory : string) (w : World)
  : Result Handle * World :=
  if negb (dir_exists w persist_directory) then
    build_index data_dir persist_directory w
  else
    match needs_reindex data_dir w with
    | Raise e => (Raise e, w)
    | Ok true => build_index data_dir persist_directory w
    | Ok false =>
        match try_open w persist_directory ByEmbeddingFunction [] with
        | inl vector_store => (Ok vector_store, w)
        | inr tried_errors =>
        match try_open w persist_directory ByEmbedding tried_errors with
        | inl vector_store => (Ok vector_store, w)
        | inr tried_errors =>
        match try_open w persist_directory NoEmbedding tried_errors with
        | inl vector_store => (Ok vector_store, w)
        | inr tried_errors =>
            match build_index data_dir persist_directory w with
            | (Ok vector_store, w) => (Ok vector_store, w)
            | (Raise e, w) =>
                (Raise (RuntimeErrorWith
                          "Failed to load or build Chroma vector store. Errors: "
                          (tried_errors ++ [e])%list), w)
            end
        end end end
    end.

End Indexer.

(** ** Retrieval service ([app/main.py]) *)

(** [schemas.QuerySource]: both fields are [str]. *)
Record QuerySource : Type := mkQuerySource {
  source : string;
  snippet : string
}.

(** What the retrieval block of [query] leaves in its local variables. *)
Record Retrieval : Type := mkRetrieval {
  sources : list QuerySource;
  context_pieces : list string;
  all_sources : list string;
  data_files : list string;
  no_text_files : list string
}.

(** [sorted({Path(m.get("source", "")).name for m in metadatas if m.get("source")})] *)
Definition indexed_names (metadatas : list (gmap string string)) : list string :=
  Py.sorted (elements (list_to_set (C := gset string)
    (omap (λ m : gmap string string,
             match m !! "source" with
             | Some s => if bool_decide (s = "") then None else Some (Path.name s)
             | None => None
             end) metadatas))).

(** [[p.name for p in entries if p.is_file()]] *)
Fixpoint file_names (entries : list (string * Node)) : Result (list string) :=
  match entries with
  | [] => Ok []
  | (p, n) :: rest =>
      regular ← is_file n;
      names ← file_names rest;
      Ok (if (regular : bool) then Path.name p :: names else names)
  end.

(** [sorted([p.name for p in Path(DATA_DIR).rglob("*") if p.is_file()])] *)
Definition enumerated_names (fs : gmap string Node) (data_dir : string)
  : Result (list string) :=
  names ← file_names (rglob fs data_dir);
  Ok (Py.sorted names).

(** [[name for name in data_files if name not in all_sources]] *)
Definition unindexed_names (data_files all_sources : list string) : list string :=
  filter (λ name, name ∉ all_sources) data_files.

Section App.

Variable cfg : Config.
Variable policy : StorePolicy.
Variable PdfReader : bool.
Variable RecursiveCharacterTextSplitter : Z → Z → Result (string → list string).
Variable Chroma : World → string → Binding → Result Handle.

(** [vector_store.similarity_search(query, k=k)], third-party. *)
Variable similarity_search : World → Handle → string → Z → Result (list Document).

(** [vector_store._collection.get(include=["metadatas"]).get("metadatas", [])],
    third-party. *)
Variable get_metadatas : World → Handle → Result (list (gmap string string)).

Definition _ensure_index_up_to_date (vector_store : option Handle) (w : World)
  : Result (option Handle) * World :=
  let rebuild :=
    match build_index cfg policy PdfReader RecursiveCharacterTextSplitter
            (DATA_DIR cfg) (CHROMA_DIR cfg) w with
    | (Ok vs, w) => (Ok (Some vs), w)
    | (Raise e, w) => (Raise e, w)
    end in
  match vector_store with
  | None => rebuild
  | Some _ =>
      match needs_reindex (DATA_DIR cfg) w with
      | Raise e => (Raise e, w)
      | Ok true => rebuild
      | Ok false => (Ok vector_store, w)
      end
  end.

(** [startup_event]: a failure is logged, not raised. *)
Definition startup_event (vector_store : option Handle) (w : World)
  : option Handle * World :=
  match load_or_build cfg policy PdfReader RecursiveCharacterTextSplitter Chroma
          (DATA_DIR cfg) (CHROMA_DIR cfg) w with
  | (Ok vs, w) => (Some vs, w)
  | (Raise _, w) => (vector_store, w)
  end.

(** [(d.page_content or "").strip().replace("\n", " ")[:800]] *)
Definition snippet_of (d : Document) : string :=
  String.substring 0 800 (Py.replace (ascii_of_nat 10) " " (Py.strip (page_content d))).

(** [QuerySource(source=src, snippet=snippet)]: pydantic refuses a
    source that is [None]. *)
Definition query_source (d : Document) : Result QuerySource :=
  match metadata d !! "source" with
  | Some src => Ok {| source := src; snippet := snippet_of d |}
  | None => Raise (Exception "ValidationError" "1 validation error for QuerySource")
  end.

Definition context_piece (d : Document) : string :=
  "Source: " ++ default "None" (metadata d !! "source") ++ Py.newline ++ page_content d.

(** The [if req.use_rag:] block of [query], on the store in hand. The
    loop over the retrieved chunks raises at the first chunk for which no
    [QuerySource] can be made. *)
Definition retrieve (vector_store : Handle) (query : string) (k : Z) (w : World)
  : Result Retrieval :=
  retrieved ← similarity_search w vector_store query k;
  sources ← mapM query_source retrieved;
  all_sources ← try_except
                  (metadatas ← get_metadatas w vector_store;
                   Ok (indexed_names metadatas))
                  (λ _, Ok []);
  data_files ← try_except (enumerated_names (fs w) (DATA_DIR cfg)) (λ _, Ok []);
  let no_text_files :=
    if bool_decide (data_files = []) then []
    else unindexed_names data_files all_sources in
  Ok {| sources := sources;
        context_pieces := context_piece <$> retrieved;
        all_sources := all_sources;
        data_files := data_files;
        no_text_files := no_text_files |}.

(** The all-sources list the retrieval block ends with. *)
Definition read_sources (vs : Handle) (w : World) : list string :=
  match get_metadatas w vs with
  | Ok metadatas => indexed_names metadatas
  | Raise _ => []
  end.

(** The data-files list the retrieval block ends with. *)
Definition read_files (w : World) : list string :=
  match enumerated_names (fs w) (DATA_DIR cfg) with
  | Ok names => names
  | Raise _ => []
  end.

Definition empty_retrieval : Retrieval :=
  {| sources := []; context_pieces := []; all_sources := [];
     data_files := []; no_text_files := [] |}.

(** [query] up to the end of retrieval; what follows builds the prompt
    and calls the generation collaborator. A failure of the freshness
    check is re-raised as [HTTPException(500)]. *)
Definition query (use_rag : bool) (text : string) (k : Z)
    (vector_store : option Handle) (w : World)
  : Result Retrieval * option Handle * World :=
  match _ensure_index_up_to_date vector_store w with
  | (Raise e, w) => (Raise (Exception "HTTPException" (Exc_str e)), vector_store, w)
  | (Ok vector_store, w) =>
      if use_rag then
        match vector_store with
        | Some vs => (retrieve vs text k w, vector_store, w)
        | None => (Raise (Exception "AttributeError"
                            "'NoneType' object has no attribute 'similarity_search'"),
                   vector_store, w)
        end
      else (Ok empty_retrieval, vector_store, w)
  end.

End App.

(** ** Example worlds

    Concrete files, collaborators and worlds on which the statements below
    are evaluated. *)

Module Example.

(** The digits-only fragment of Python's [int] on a [str], with an
    optional minus sign. *)
Fixpoint digits_value (s : string) (acc : Z) : option Z :=
  match s with
  | EmptyString => Some acc
  | String c s' =>
      let n := nat_of_ascii c in
      if (48 <=? n)%nat && (n <=? 57)%nat
      then digits_value s' (10 * acc + Z.of_nat (n - 48))
      else None
  end.

Definition parse_decimal (s : string) : option Z :=
  match s with
  | EmptyString => None
  | String "-" s' => if bool_decide (s' = "") then None else Z.opp <$> digits_value s' 0
  | _ => digits_value s 0
  end.

Definition text_file (mtime : Q) (content : string) : Node :=
  Reg {| st_mtime := mtime; readable := true; as_utf8 := Some content;
         as_latin1 := content; as_pdf := PdfOpenRaises "EOF marker not found" |}.

Definition locked_file (mtime : Q) : Node :=
  Reg {| st_mtime := mtime; readable := false; as_utf8 := None;
         as_latin1 := ""; as_pdf := PdfOpenRaises "Permission denied" |}.

(** A scanned PDF: two pages without any text layer. *)
Definition scanned_pdf (mtime : Q) : Node :=
  Reg {| st_mtime := mtime; readable := true; as_utf8 := None;
         as_latin1 := "%PDF-1.4"; as_pdf := PdfPages [PageText None; PageText (Some "")] |}.

Definition text_pdf (mtime : Q) (page : string) : Node :=
  Reg {| st_mtime := mtime; readable := true; as_utf8 := None;
         as_latin1 := "%PDF-1.4"; as_pdf := PdfPages [PageText (Some page)] |}.

Definition image_file (mtime : Q) : Node :=
  Reg {| st_mtime := mtime; readable := true; as_utf8 := None;
         as_latin1 := "PNG"; as_pdf := PdfOpenRaises "EOF marker not found" |}.

Definition report : string :=
  "Quarterly figures for the northern region, with notes on staffing, "
  ++ "freight costs and the revised delivery schedule for next year.".

Definition cfg : Config :=
  {| DATA_DIR := "/app/data"; CHROMA_DIR := "/app/chroma_db";
     CHUNK_SIZE := 1000; CHUNK_OVERLAP := 200 |}.

(** A splitter that refuses an overlap larger than the window and
    otherwise keeps each text whole. *)
Definition whole_text_splitter (chunk_size chunk_overlap : Z)
  : Result (string → list string) :=
  if chunk_size <? chunk_overlap
  then Raise (Exception "ValueError" "Got a larger chunk overlap than chunk size")
  else Ok (λ text, [text]).

(** A store library that cannot open any directory. *)
Definition Chroma_broken (w : World) (dir : string) (b : Binding) : Result Handle :=
  Raise (Exception
           (match b with NoEmbedding => "ValueError" | _ => "TypeError" end)
           (match b with
            | ByEmbeddingFunction => "unexpected keyword argument 'embedding_function'"
            | ByEmbedding => "unexpected keyword argument 'embedding'"
            | NoEmbedding => "could not open collection"
            end)).

(** A search that returns the first [k] stored chunks. *)
Definition first_k (w : World) (vs : Handle) (query : string) (k : Z)
  : Result (list Document) :=
  Ok (take (Z.to_nat k) (default [] (chroma w !! handle_dir vs))).

(** A metadata read that returns what the collection holds. *)
Definition stored_metadatas (w : World) (vs : Handle)
  : Result (list (gmap string string)) :=
  Ok (metadata <$> default [] (chroma w !! handle_dir vs)).

(** A metadata read that fails. *)
Definition metadatas_unavailable (w : World) (vs : Handle)
  : Result (list (gmap string string)) :=
  Raise (Exception "InternalError" "database is locked").

Definition store : Handle := {| handle_dir := "/app/chroma_db"; can_embed := true |}.

(** A text file, a scanned PDF and an image, never indexed. *)
Definition fresh : World :=
  {| fs := <["/app/data/a.txt" := text_file (1002 # 10) "hello world"]>
             (<["/app/data/b.pdf" := scanned_pdf 5]>
                (<["/app/data/img.png" := image_file 7]>
                   (<["/app/data/notes" := Dir]> ∅)));
     manifest_file := MfMissing;
     chroma := ∅ |}.

(** The same after a build. *)
Definition indexed : World :=
  built cfg Recreate [source_document "hello world" "/app/data/a.txt"]
    "/app/data" "/app/chroma_db" fresh.



(** An index directory, no manifest, no file. *)
Definition bare : World :=
  {| fs := ∅; manifest_file := MfMissing; chroma := {["/app/chroma_db" := []]} |}.

(** A text file that cannot be opened next to one that can. *)
Definition locked : World :=
  {| fs := <["/app/data/a.txt" := text_file 3 "hello world"]>
             (<["/app/data/b.txt" := locked_file 4]> ∅);
     manifest_file := MfMissing;
     chroma := ∅ |}.

(** A text file next to a directory that can be listed but not searched. *)
Definition sealed : World :=
  {| fs := <["/app/data/a.txt" := text_file 3 "hello world"]>
             (<["/app/data/vault" := Dir]>
                (<["/app/data/vault/key.bin" := NoAccess]> ∅));
     manifest_file := MfMissing;
     chroma := ∅ |}.

(** An index directory whose manifest file holds the JSON text [[]], no
    file below the root. *)
Definition bare_list : World :=
  {| fs := ∅; manifest_file := MfForeign JsonOther;
     chroma := {["/app/chroma_db" := []]} |}.

Definition overlap_env (name : string) : option string :=
  if bool_decide (name = "RAG_CHUNK_OVERLAP") then Some "2000" else None.

Definition wide_overlap : Config :=
  {| DATA_DIR := "/app/data"; CHROMA_DIR := "/app/chroma_db";
     CHUNK_SIZE := 1000; CHUNK_OVERLAP := 2000 |}.

End Example.

(** ** What the staleness check sees of a node *)

(** What a node gives rise to in the loop over the root: for a regular
    file the manifest entry, the whole seconds of its modification time;
    for an entry that cannot be examined the error; nothing otherwise. *)
Definition stamp (node : option Node) : option (Result Z) :=
  match node with
  | Some (Reg f) => Some (Ok (Py.int_of_float (st_mtime f)))
  | Some NoAccess => Some (Raise (Exception "PermissionError" "Permission denied"))
  | _ => None
  end.

(** An index directory outside a data root: nothing written below it is
    met by [rglob] on the root. *)
Definition outside (root dir : string) : Prop :=
  dir ≠ root ∧ Path.under root dir = false.

(** The source recorded in a Document's metadata. *)
Definition source_of (d : Document) : option string := metadata d !! "source".

(** ** More Python built-ins *)

Module PyText.

(** [str(n)] for an integer. *)
Definition str_int (n : Z) : string := NilZero.string_of_int (Z.to_int n).

(** Truth value of a [str] that may be [None]. *)
Definition truthy (s : option string) : bool :=
  match s with
  | Some s => negb (bool_decide (s = ""))
  | None => false
  end.

(** [a or b] on strings. *)
Definition or_else (a b : string) : string := if bool_decide (a = "") then b else a.

(** [s.startswith(prefix)] *)
Definition startswith (prefix s : string) : bool := String.prefix prefix s.

(** [sub in s] *)
Fixpoint contains (sub s : string) : bool :=
  String.prefix sub s
  || match s with
     | String _ s' => contains sub s'
     | EmptyString => false
     end.

(** [s.lstrip(c)], [s.rstrip(c)] and [s.strip(c)] for a one-character [c]. *)
Fixpoint lstrip_char (c : ascii) (s : string) : string :=
  match s with
  | String a s' => if Ascii.eqb a c then lstrip_char c s' else s
  | EmptyString => EmptyString
  end.

Definition rstrip_char (c : ascii) (s : string) : string :=
  String.rev (lstrip_char c (String.rev s)).

Definition strip_char (c : ascii) (s : string) : string :=
  rstrip_char c (lstrip_char c s).

(** The line boundaries of [str.splitlines] below 256, the pair CR LF
    apart. *)
Definition is_linebreak (c : ascii) : bool :=
  let n := nat_of_ascii c in
  ((10 <=? n)%nat && (n <=? 13)%nat) || ((28 <=? n)%nat && (n <=? 30)%nat)
  || (n =? 133)%nat.

(** [s.splitlines()]: [cur] is the line being read, reversed. *)
Fixpoint splitlines_go (cur : string) (s : string) : list string :=
  match s with
  | EmptyString => if bool_decide (cur = "") then [] else [String.rev cur]
  | String c s' =>
      if is_linebreak c then
        String.rev cur ::
        match s' with
        | String c' s'' =>
            if Ascii.eqb c (ascii_of_nat 13) && Ascii.eqb c' (ascii_of_nat 10)
            then splitlines_go "" s''
            else splitlines_go "" s'
        | EmptyString => []
        end
      else splitlines_go (String c cur) s'
  end.

Definition splitlines (s : string) : list string := splitlines_go "" s.

(** [s.split()]: the maximal runs of characters that are not blank. *)
Fixpoint split_ws_go (cur : string) (s : string) : list string :=
  match s with
  | EmptyString => if bool_decide (cur = "") then [] else [String.rev cur]
  | String c s' =>
      if Py.isspace c then
        if bool_decide (cur = "") then split_ws_go "" s'
        else String.rev cur :: split_ws_go "" s'
      else split_ws_go (String c cur) s'
  end.

Definition split_ws (s : string) : list string := split_ws_go "" s.


End PyText.

(** ** Chat sessions ([app/chat_store.py])

    A chat is a JSON object kept in the file [CHATS_DIR/<id>.json]. The
    store maps the [<id>] of each such file to what [json.load] makes of
    it; files of other names are seen by no operation. The fields of a
    chat object have the types the API writes, each of them possibly
    absent. Clock readings and the fresh UUID are arguments. The
    directory is taken to be writable, and a chat id to be a file name:
    see [plain]. *)

Module ChatStore.

(** An id that names a file of [CHATS_DIR] itself: with a path separator
    in it, [CHATS_DIR / f"{chat_id}.json"] lies elsewhere. *)
Definition plain (chat_id : string) : bool :=
  forallb (λ c, negb (bool_decide (c = "/"%char ∨ c = "000"%char)))
          (list_ascii_of_string chat_id).

Record Message : Type := mkMessage {
  msg_id : option string;
  role : string;
  content : string;
  msg_sources : option (list (gmap string string))
}.

Record Chat : Type := mkChat {
  id : option string;
  title : option string;
  messages : option (list Message);
  updated_at : option Z
}.

(** What [json.load] returns: a chat object, or some other JSON value of
    the given truth value. *)
Inductive Json : Type :=
| JChat (c : Chat)
| JOther (truth : bool).

Inductive ChatFile : Type :=
| Unparseable
| Parsed (j : Json).

(** [CHATS_DIR]: [None] while the directory does not exist. *)
Definition Store : Type := option (gmap string ChatFile).

Definition files (s : Store) : gmap string ChatFile := default ∅ s.

Definition _ensure_dir (s : Store) : Store := Some (files s).

Definition _default_welcome_message (now_ms : Z) : Message :=
  {| msg_id := Some ("welcome-" ++ PyText.str_int now_ms);
     role := "assistant";
     content := "Hi! Ask me anything about the files in your data folder.";
     msg_sources := Some [] |}.

Definition save_chat (now : Z) (chat : Chat) (s : Store) : Result Chat * Store :=
  let s := _ensure_dir s in
  match id chat with
  | Some chat_id =>
      if bool_decide (chat_id = "") then
        (Raise (Exception "ValueError" "Chat must include an id"), s)
      else
        let chat := {| id := id chat; title := title chat; messages := messages chat;
                       updated_at := Some now |} in
        (Ok chat, Some (<[chat_id := Parsed (JChat chat)]> (files s)))
  | None => (Raise (Exception "ValueError" "Chat must include an id"), s)
  end.

(** [create_chat]: [uuid_hex] is [uuid4().hex]; [now_ms], [now_created]
    and [now_saved] are the three clock readings, the last one taken by
    [save_chat]. *)
Definition create_chat (uuid_hex : string) (now_ms now_created now_saved : Z)
    (title : option string) (messages : option (list Message)) (s : Store)
  : Result Chat * Store :=
  let s := _ensure_dir s in
  let chat_id := "chat-" ++ uuid_hex in
  let chat :=
    {| id := Some chat_id;
       title := Some (if PyText.truthy title then default "" title else "New chat");
       messages := Some (match messages with
                         | Some ms => ms
                         | None => [_default_welcome_message now_ms]
                         end);
       updated_at := Some now_created |} in
  save_chat now_saved chat s.

(** The chat a file contributes to [list_chats], if any. *)
Definition listed (f : ChatFile) : option Chat :=
  match f with
  | Parsed (JChat chat) => if PyText.truthy (id chat) then Some chat else None
  | _ => None
  end.

(** [c.get("updated_at", 0)] *)
Definition sort_key (c : Chat) : Z := default 0 (updated_at c).

(** The order [sort(key=..., reverse=True)] establishes. *)
Definition newer_first (a b : Chat) : Prop := sort_key b ≤ sort_key a.

Global Instance newer_first_dec : RelDecision newer_first.
Proof. intros a b. unfold newer_first. apply _. Defined.

Definition list_chats (s : Store) : list Chat * Store :=
  let s := _ensure_dir s in
  let chats := omap (λ x, listed x.2) (map_to_list (files s)) in
  (merge_sort newer_first chats, s).

Definition get_chat (chat_id : string) (s : Store) : Result (option Json) * Store :=
  let s := _ensure_dir s in
  match files s !! chat_id with
  | None => (Ok None, s)
  | Some Unparseable => (Raise (Exception "JSONDecodeError" "Expecting value"), s)
  | Some (Parsed j) => (Ok (Some j), s)
  end.


End ChatStore.

(** ** The remaining handlers of [app/main.py] *)

Module Api.

Import ChatStore.

Definition HTTPException (status_code : Z) (detail : string) : Exc :=
  Exception ("HTTPException " ++ PyText.str_int status_code) detail.

(** [_require_token]: [authorization] is [request.headers.get("authorization")]. *)
Definition _require_token (API_TOKEN authorization : option string) : Result unit :=
  if PyText.truthy API_TOKEN then
    let token := authorization in
    if negb (PyText.truthy token)
       || negb (bool_decide (token = Some ("Bearer " ++ default "" API_TOKEN)))
    then Raise (HTTPException 401 "Unauthorized")
    else Ok tt
  else Ok tt.

(** Truth value of what [get_chat] returns. *)
Definition truthy_json (chat : option Json) : bool :=
  match chat with
  | None => false
  | Some (JOther truth) => truth
  | Some (JChat c) =>
      negb (bool_decide (id c = None ∧ title c = None ∧ messages c = None
                         ∧ updated_at c = None))
  end.

(** [chat.get(...)] on what [get_chat] returned: only an object has it. *)
Definition as_object (j : Json) : Result Chat :=
  match j with
  | JChat c => Ok c
  | JOther _ => Raise (Exception "AttributeError" "object has no attribute 'get'")
  end.

(** [[m for m in messages if m.get("role") == r]] *)
Definition with_role (r : string) (ms : list Message) : list Message :=
  filter (λ m, role m = r) ms.

Record Summary : Type := mkSummary {
  summary_id : string;
  summary_title : string;
  first_question : string;
  message_count : nat
}.

(** [get_chat_summary], the token check apart. *)
Definition get_chat_summary (chat_id : string) (s : Store) : Result Summary * Store :=
  match get_chat chat_id s with
  | (Raise e, s) => (Raise e, s)
  | (Ok chat, s) =>
      if negb (truthy_json chat) then (Raise (HTTPException 404 "Chat not found"), s)
      else
        (j ← match chat with
             | Some j => Ok j
             | None => Raise (HTTPException 404 "Chat not found")
             end;
         c ← as_object j;
         let ms := default [] (messages c) in
         let first_user_msg := head (with_role "user" ms) in
         let first_question :=
           match first_user_msg with
           | Some m => String.substring 0 100 (content m)
           | None => ""
           end in
         i ← match id c with
             | Some i => Ok i
             | None => Raise (Exception "KeyError" "'id'")
             end;
         Ok {| summary_id := i; summary_title := default "Chat" (title c);
               first_question := first_question; message_count := length ms |}, s)
  end.









(** A value of the options handed to the model. *)
Inductive OptionValue : Type :=
| OptFloat (q : Q)
| OptInt (n : Z)
| OptStrings (l : list string).

(** The model parameters of a [QueryRequest]. *)
Record LlmParameters : Type := mkLlmParameters {
  temperature : option Q;
  top_p : option Q;
  top_k : option Z;
  repeat_penalty : option Q;
  seed : option Z;
  max_tokens : option Z;
  num_ctx : option Z;
  mirostat : option Z;
  mirostat_tau : option Q;
  mirostat_eta : option Q;
  stop : option (list string)
}.

(** [if value is not None: llm_options[key] = value] *)
Definition set_option {A} (key : string) (wrap : A → OptionValue) (value : option A)
    (llm_options : gmap string OptionValue) : gmap string OptionValue :=
  match value with
  | Some v => <[key := wrap v]> llm_options
  | None => llm_options
  end.

Definition llm_options (req : LlmParameters) : gmap string OptionValue :=
  let o := ∅ in
  let o := set_option "temperature" OptFloat (temperature req) o in
  let o := set_option "top_p" OptFloat (top_p req) o in
  let o := set_option "top_k" OptInt (top_k req) o in
  let o := set_option "repeat_penalty" OptFloat (repeat_penalty req) o in
  let o := set_option "seed" OptInt (seed req) o in
  let o := set_option "num_predict" OptInt (max_tokens req) o in
  let o := set_option "num_ctx" OptInt (num_ctx req) o in
  let o := set_option "mirostat" OptInt (mirostat req) o in
  let o := set_option "mirostat_tau" OptFloat (mirostat_tau req) o in
  let o := set_option "mirostat_eta" OptFloat (mirostat_eta req) o in
  match stop req with
  | Some ((_ :: _) as l) => <["stop" := OptStrings l]> o
  | _ => o
  end.

(** [llm_options or None], what [predict_with_ollama] receives. *)
Definition options_argument (req : LlmParameters) : option (gmap string OptionValue) :=
  let o := llm_options req in
  if bool_decide (dom o = ∅) then None else Some o.

End Api.

(** ** The generation collaborator ([app/ollama.py])

    A call of [subprocess.run] or [requests.post] is a question put to the
    outside: the answers are arguments of the functions below. *)

Module Ollama.

(** How a [subprocess.run] ends. *)
Inductive ProcOutcome : Type :=
| Completed (returncode : Z) (stdout stderr : string)
| FileNotFound
| TimeoutExpired.

Definition cli_not_found : Exc :=
  Exception "RuntimeError" "'ollama' CLI not found. Install Ollama and ensure it's on PATH.".

(** [(proc.stdout or proc.stderr or "")] *)
Definition output (stdout stderr : string) : string := PyText.or_else stdout stderr.

(** The loop over the lines of the help text. *)
Fixpoint scan (lines : list string) (collect : bool) (cmds : list string) : list string :=
  match lines with
  | [] => cmds
  | line :: rest =>
      let line := Py.rstrip line in
      if PyText.contains "available commands" line then scan rest true cmds
      else if collect then
        if bool_decide (Py.strip line = "") then cmds
        else match PyText.split_ws (Py.strip line) with
             | part :: _ => scan rest collect (cmds ++ [part])
             | [] => scan rest collect cmds
             end
      else scan rest collect cmds
  end.

(** The three tests the loop makes on a line: whether it announces the
    list of commands, whether it is blank, and the command it names. *)
Definition heads_list (line : string) : bool :=
  PyText.contains "available commands" (Py.rstrip line).

Definition blank (line : string) : bool :=
  bool_decide (Py.strip (Py.rstrip line) = "").

Definition command_of (line : string) : option string :=
  head (PyText.split_ws (Py.strip (Py.rstrip line))).

(** The two loops that order the commands: [run], [predict] and
    [generate] first, then the others as found. *)
Definition prefer (cmds : list string) : list string :=
  let preferred :=
    foldl (λ (preferred : list string) c,
             if bool_decide (c ∈ cmds) && negb (bool_decide (c ∈ preferred))
             then (preferred ++ [c])%list else preferred)
          [] ["run"; "predict"; "generate"] in
  foldl (λ (preferred : list string) c,
           if bool_decide (c ∈ preferred) then preferred else (preferred ++ [c])%list)
        preferred cmds.

(** [_detect_ollama_commands], given how [ollama --help] ended. *)
Definition _detect_ollama_commands (help : ProcOutcome) : Result (list string) :=
  match help with
  | FileNotFound => Raise cli_not_found
  | TimeoutExpired => Raise (Exception "TimeoutExpired" "ollama --help")
  | Completed _ stdout stderr =>
      let help_out := Py.lower (output stdout stderr) in
      let cmds :=
        if PyText.contains "available commands" help_out
        then scan (PyText.splitlines help_out) false []
        else [] in
      let cmds := if bool_decide (cmds = []) then ["run"; "predict"; "generate"] else cmds in
      Ok (prefer cmds)
  end.

Definition _normalize_ollama_host (host : string) : string :=
  let host := Py.strip host in
  if bool_decide (host = "") then "http://127.0.0.1:11434"
  else if PyText.startswith "http://" host || PyText.startswith "https://" host
  then PyText.rstrip_char "/" host
  else "http://" ++ PyText.strip_char "/" host.

Record Payload : Type := mkPayload {
  model : string;
  prompt : string;
  stream : bool;
  options : option (gmap string Api.OptionValue)
}.

(** How a [requests.post] ends: [json_response] is what
    [resp.json().get("response")] gives. *)
Inductive HttpOutcome : Type :=
| RequestException (msg : string)
| Response (status_code : Z) (text : string) (json_response : Result (option string)).

(** [repr] of a list of strings free of quotes and backslashes. *)
Definition repr_list (l : list string) : string :=
  "[" ++ Py.join ", " ((λ c, "'" ++ c ++ "'") <$> l) ++ "]".

Section Generation.

Variable OLLAMA_MODEL : string.
Variable OLLAMA_HOST : string.

(** [requests.post(url, json=payload, timeout=timeout)] *)
Variable post : string → Payload → HttpOutcome.

(** [subprocess.run(argv, input=input, ...)] *)
Variable run : list string → option string → ProcOutcome.

(** The module-level [_AVAILABLE_CMD_PREFERENCE]. *)
Variable _AVAILABLE_CMD_PREFERENCE : list string.

Definition _ollama_http_generate (prompt model : string)
    (options : option (gmap string Api.OptionValue)) : Result string :=
  let url := _normalize_ollama_host OLLAMA_HOST ++ "/api/generate" in
  let payload :=
    {| model := model; prompt := prompt; stream := false;
       options := match options with
                  | Some o => if bool_decide (dom o = ∅) then None else Some o
                  | None => None
                  end |} in
  match post url payload with
  | RequestException e =>
      Raise (Exception "RuntimeError"
               ("Failed to reach Ollama HTTP API at " ++ url ++ ": " ++ e))
  | Response status_code text json_response =>
      if bool_decide (status_code ≠ 200) then
        Raise (Exception "RuntimeError"
                 ("Ollama HTTP API error " ++ PyText.str_int status_code ++ ": " ++ text))
      else
        data ← json_response;
        let out := Py.strip (default "" data) in
        if bool_decide (out = "") then
          Raise (Exception "RuntimeError" "Ollama HTTP API returned an empty response.")
        else Ok out
  end.

(** How a stretch of the command loop ends. *)
Inductive Flow : Type :=
| Return (out : string)
| Raised (e : Exc)
| Continue.                      (* go on with what follows the stretch *)

Definition unknown_command (stderr : string) : bool :=
  PyText.contains "unknown command" stderr || PyText.contains "not a valid command" stderr.

Definition unknown_flag (stderr : string) : bool :=
  PyText.contains "unknown flag" stderr || PyText.contains "unknown shorthand flag" stderr
  || PyText.contains "flag provided but not defined" stderr.

Definition timed_out (cmd : string) : Exc :=
  Exception "RuntimeError" ("Ollama " ++ cmd ++ " timed out").

(** Step 2: the loop over the flags. *)
Fixpoint try_flags (cmd model prompt : string) (flags : list string) : Flow :=
  match flags with
  | [] => Continue
  | flag :: rest =>
      match run ["ollama"; cmd; model; flag; prompt] None with
      | FileNotFound => Raised cli_not_found
      | TimeoutExpired => Raised (timed_out cmd)
      | Completed returncode stdout stderr =>
          if bool_decide (returncode ≠ 0) && unknown_flag (Py.lower stderr)
          then try_flags cmd model prompt rest
          else
            let out := Py.strip (output stdout stderr) in
            if bool_decide (out = "") then try_flags cmd model prompt rest
            else Return out
      end
  end.

(** Step 3: the prompt on standard input. *)
Definition try_stdin (cmd model prompt : string) : Flow :=
  match run ["ollama"; cmd; model] (Some prompt) with
  | FileNotFound => Raised (Exception "FileNotFoundError" "ollama")
  | TimeoutExpired =>
      Raised (Exception "RuntimeError"
                ("Ollama " ++ cmd ++ " timed out when sending prompt via stdin"))
  | Completed returncode stdout stderr =>
      if bool_decide (returncode = 0) then
        let out := Py.strip (output stdout stderr) in
        if bool_decide (out = "") then Continue else Return out
      else Continue
  end.

(** The body of the loop for one command. *)
Definition try_command (cmd model prompt : string) : Flow :=
  match run ["ollama"; cmd; model; prompt] None with
  | FileNotFound => Raised cli_not_found
  | TimeoutExpired => Raised (timed_out cmd)
  | Completed returncode stdout stderr =>
      let out := Py.strip (output stdout stderr) in
      if bool_decide (returncode = 0) && negb (bool_decide (out = "")) then Return out
      else if bool_decide (returncode ≠ 0) && unknown_command (Py.lower stderr)
      then Continue
      else
        match try_flags cmd model prompt ["--prompt"; "--input"; "--text"; "-p"] with
        | Continue => try_stdin cmd model prompt
        | flow => flow
        end
  end.

Fixpoint try_commands (cmds : list string) (model prompt : string) : Flow :=
  match cmds with
  | [] => Continue
  | cmd :: rest =>
      match try_command cmd model prompt with
      | Continue => try_commands rest model prompt
      | flow => flow
      end
  end.

Definition predict_with_ollama (prompt : string) (model_id : option string)
    (options : option (gmap string Api.OptionValue)) : Result string :=
  let model := if PyText.truthy model_id then default "" model_id else OLLAMA_MODEL in
  match _ollama_http_generate prompt model options with
  | Ok out => Ok out
  | Raise _ =>
      match try_commands _AVAILABLE_CMD_PREFERENCE model prompt with
      | Return out => Ok out
      | Raised e => Raise e
      | Continue =>
          match run ["ollama"; "--help"] None with
          | FileNotFound => Raise (Exception "FileNotFoundError" "ollama")
          | TimeoutExpired => Raise (Exception "TimeoutExpired" "ollama --help")
          | Completed _ stdout stderr =>
              Raise (Exception "RuntimeError"
                       ("Failed to call Ollama with detected subcommands ("
                        ++ repr_list _AVAILABLE_CMD_PREFERENCE ++ "). `ollama --help`:"
                        ++ Py.newline ++ Py.strip (output stdout stderr)))
          end
      end
  end.

(** An answer of the CLI: the stripped output, not empty, of a call for
    the command [cmd] that completed. *)
Definition cli_answer (cmd model out : string) : Prop :=
  out ≠ ""
  ∧ ∃ args input returncode stdout stderr,
      run ("ollama" :: cmd :: model :: args) input = Completed returncode stdout stderr
      ∧ out = Py.strip (output stdout stderr).

End Generation.

End Ollama.

(** ** The loader of the command-line demo ([offline_rag.py]) *)

Module OfflineRag.

(** [pages.append(page.extract_text() or "")], an empty page on failure. *)
Definition page_text (page : PageRead) : string :=
  match page with
  | PageText t => default "" t
  | PageRaises _ => ""
  end.

Section Loader.

(** Whether [from pypdf import PdfReader] succeeds. *)
Variable pypdf : bool.

Definition load_pdf (p : string) (f : File) : string :=
  if pypdf then
    match as_pdf f with
    | PdfOpenRaises msg => "[Failed to extract PDF " ++ p ++ ": " ++ msg ++ "]"
    | PdfPages pages => Py.join (Py.newline ++ Py.newline) (page_text <$> pages)
    end
  else "[Failed to extract PDF " ++ p ++ ": No module named 'pypdf']".

Definition load_file (p : string) (n : Node) : Result (option Document) :=
  regular ← is_file n;
  match n with
  | Reg f =>
      let suffix := Py.lower (Path.suffix p) in
      if bool_decide (suffix ∈ [".txt"; ".md"; ".html"]) then
        text ← load_text f; Ok (Some (source_document text p))
      else if bool_decide (suffix = ".pdf") then
        Ok (Some (source_document (load_pdf p f) p))
      else Ok None
  | _ => Ok None                   (* [continue] *)
  end.

(** What an entry contributes to the document list. *)
Definition emitted (x : string * Node) : option Document :=
  match load_file x.1 x.2 with
  | Ok o => o
  | Raise _ => None
  end.

Fixpoint load_loop (entries : list (string * Node)) (docs : list Document)
  : Result (list Document) :=
  match entries with
  | [] => Ok docs
  | (p, n) :: rest =>
      d ← load_file p n;
      load_loop rest (match d with Some d => docs ++ [d] | None => docs end)
  end.

Definition load_local_documents (fs : gmap string Node) (data_dir : string)
  : Result (list Document) :=
  load_loop (rglob_sorted fs data_dir) [].

End Loader.

End OfflineRag.

(** A regular file of one of the four types the two loaders read. *)
Definition supported (x : string * Node) : bool :=
  match x.2 with Reg _ => true | _ => false end
  && bool_decide (Py.lower (Path.suffix x.1) ∈ [".txt"; ".md"; ".html"; ".pdf"]).

(** ** More examples

    Files, chats and collaborators for the statements on the handlers,
    the chat store and the generation collaborator. *)

Module Sample.

Import ChatStore.

(** Two texts, a PDF with a text layer, a scanned one and an image. *)
Definition files : gmap string Node :=
  <["/app/data/a.txt" := Example.text_file 3 "hello world"]>
    (<["/app/data/notes/b.md" := Example.text_file 4 "# notes"]>
       (<["/app/data/c.pdf" := Example.text_pdf 5 Example.report]>
          (<["/app/data/d.pdf" := Example.scanned_pdf 6]>
             (<["/app/data/img.png" := Example.image_file 7]>
                (<["/app/data/notes" := Dir]> ∅))))).

(** A store library that opens any directory, whatever the binding. *)
Definition Chroma_opens (w : World) (dir : string) (b : Binding) : Result Handle :=
  Ok {| handle_dir := dir; can_embed := true |}.

Definition question : Message :=
  {| msg_id := None; role := "user"; content := "What is in the report?";
     msg_sources := None |}.

Definition answer : Message :=
  {| msg_id := None; role := "assistant"; content := "Quarterly figures.";
     msg_sources := Some [{["source" := "/app/data/c.pdf"]}] |}.

Definition monday : Chat :=
  {| id := Some "chat-1"; title := Some "Report"; messages := Some [question; answer];
     updated_at := Some 1700000000 |}.

Definition tuesday : Chat :=
  {| id := Some "chat-2"; title := Some "Freight"; messages := Some [question];
     updated_at := Some 1700086400 |}.

(** Two chats, a file that does not parse and one that holds a list. *)
Definition chats : Store :=
  Some (<["chat-1" := Parsed (JChat monday)]>
          (<["chat-2" := Parsed (JChat tuesday)]>
             (<["broken" := Unparseable]>
                (<["list" := Parsed (JOther true)]> ∅)))).

(** The help text of a CLI that knows [serve], [run], [pull] and [list]. *)
Definition help_text : string :=
  "Large language model runner" ++ Py.newline
  ++ Py.newline
  ++ "Usage:" ++ Py.newline
  ++ "  ollama [flags]" ++ Py.newline
  ++ "  ollama [command]" ++ Py.newline
  ++ Py.newline
  ++ "Available Commands:" ++ Py.newline
  ++ "  serve       Start ollama" ++ Py.newline
  ++ "  run         Run a model" ++ Py.newline
  ++ "  pull        Pull a model from a registry" ++ Py.newline
  ++ "  list        List models" ++ Py.newline
  ++ Py.newline
  ++ "Flags:" ++ Py.newline
  ++ "  -h, --help      help for ollama" ++ Py.newline.

(** An HTTP API that cannot be reached. *)
Definition post_down (url : string) (payload : Ollama.Payload) : Ollama.HttpOutcome :=
  Ollama.RequestException "Connection refused".

(** A CLI that knows [run] with a positional prompt only. *)
Definition run_cli (argv : list string) (input : option string) : Ollama.ProcOutcome :=
  match argv with
  | ["ollama"; "--help"] => Ollama.Completed 0 help_text ""
  | ["ollama"; "run"; _; _] => Ollama.Completed 0 ("Paris." ++ Py.newline) ""
  | _ => Ollama.Completed 1 "" "Error: unknown command"
  end.

(** No CLI on the path. *)
Definition run_absent (argv : list string) (input : option string) : Ollama.ProcOutcome :=
  Ollama.FileNotFound.

End Sample.

(** * Properties *)

(** ** The built-ins on examples *)

Example suffix_is_lowered : Py.lower (Path.suffix "/app/data/Report.PDF") = ".pdf".
Proof. reflexivity. Qed.

Example suffix_of_dotfile : Path.suffix "/app/data/.pdf" = "".
Proof. reflexivity. Qed.

Example suffix_is_last : Path.suffix "/app/data.d/a.tar.gz" = ".gz".
Proof. reflexivity. Qed.

Example name_is_last_component : Path.name "/app/data/old/b.pdf" = "b.pdf".
Proof. reflexivity. Qed.

Example strip_both_ends : Py.strip ("  a b " ++ Py.newline) = "a b".
Proof. reflexivity. Qed.

Example int_of_float_truncates : Py.int_of_float (1007 # 10) = 100.
Proof. reflexivity. Qed.

Example int_of_float_towards_zero : Py.int_of_float (-15 # 10) = -1.
Proof. reflexivity. Qed.

Example under_is_strict :
  Path.under "/app/data" "/app/data/old/b.pdf" = true
  ∧ Path.under "/app/data" "/app/data" = false
  ∧ Path.under "/app/data" "/app/database/x.txt" = false.
Proof. repeat split; reflexivity. Qed.

(** ** Listing the file system *)

Section Listing.

Implicit Types (fs : gmap string Node) (root p : string) (n : Node).

Lemma elem_of_rglob fs root p n :
  (p, n) ∈ rglob fs root ↔ fs !! p = Some n ∧ Path.under root p = true.
Proof.
  unfold rglob. rewrite list_elem_of_filter, elem_of_map_to_list. simpl.
  rewrite Is_true_true. tauto.
Qed.

Lemma elem_of_rglob_sorted fs root p n :
  (p, n) ∈ rglob_sorted fs root ↔ fs !! p = Some n ∧ Path.under root p = true.
Proof.
  unfold rglob_sorted. rewrite merge_sort_Permutation. apply elem_of_rglob.
Qed.

Lemma NoDup_fst_filter {A B} (P : A * B → Prop) `{!∀ x, Decision (P x)}
    (l : list (A * B)) :
  NoDup l.*1 → NoDup (filter P l).*1.
Proof.
  induction l as [|x l IH]; simpl; [constructor|].
  rewrite NoDup_cons. intros [Hx Hl].
  rewrite filter_cons. destruct (decide (P x)); simpl; auto.
  rewrite NoDup_cons. split; auto.
  intros Hin. apply Hx.
  apply list_elem_of_fmap in Hin as (y & -> & Hy).
  apply list_elem_of_filter in Hy as [_ Hy].
  apply list_elem_of_fmap. eauto.
Qed.

Lemma NoDup_rglob_sorted_fst fs root : NoDup (rglob_sorted fs root).*1.
Proof.
  unfold rglob_sorted. rewrite merge_sort_Permutation.
  apply NoDup_fst_filter, NoDup_fst_map_to_list.
Qed.

Lemma rglob_sorted_unique fs root p n n' :
  (p, n) ∈ rglob_sorted fs root → (p, n') ∈ rglob_sorted fs root → n = n'.
Proof.
  rewrite !elem_of_rglob_sorted. intros [H1 _] [H2 _]. congruence.
Qed.

End Listing.

(** ** The manifest of a root *)

Section Manifest.

Implicit Types (fs : gmap string Node) (root p : string) (n : Node).

(** What the loop does with one entry that can be examined. *)
Local Abbreviation record := (λ (manifest : gmap string Z) (x : string * Node),
  match x.2 with
  | Reg f => <[x.1 := Py.int_of_float (st_mtime f)]> manifest
  | _ => manifest
  end).

Lemma foldl_record_other (l : list (string * Node)) (acc : gmap string Z) p :
  (∀ f, (p, Reg f) ∉ l) → foldl record acc l !! p = acc !! p.
Proof.
  revert acc. induction l as [|[q n] l IH]; intros acc Hp; simpl; [done|].
  rewrite IH by (intros f Hin; apply (Hp f); by right).
  destruct n as [|f|]; simpl; [done| |done].
  apply lookup_insert_ne. intros ->. apply (Hp f). by left.
Qed.

Lemma foldl_record_file (l : list (string * Node)) (acc : gmap string Z) p f :
  NoDup l.*1 → (p, Reg f) ∈ l →
  foldl record acc l !! p = Some (Py.int_of_float (st_mtime f)).
Proof.
  revert acc. induction l as [|[q n] l IH]; intros acc Hnd Hin; simpl.
  - by apply elem_of_nil in Hin.
  - simpl in Hnd. apply NoDup_cons in Hnd as [Hq Hnd].
    apply elem_of_cons in Hin as [Heq|Hin].
    + inversion Heq; subst q n. simpl.
      rewrite foldl_record_other; [apply lookup_insert_eq|].
      intros f' Hin. apply Hq. apply list_elem_of_fmap. by exists (p, Reg f').
    + by apply IH.
Qed.

(** The loop returns when every entry can be examined, and raises at the
    first one that cannot. *)
Lemma manifest_loop_ok (l : list (string * Node)) (acc : gmap string Z) :
  (∀ p, (p, NoAccess) ∉ l) → manifest_loop l acc = Ok (foldl record acc l).
Proof.
  revert acc. induction l as [|[q n] l IH]; intros acc Hok; simpl; [done|].
  destruct n as [|f|]; simpl.
  - apply IH. intros p Hin. apply (Hok p). by right.
  - apply IH. intros p Hin. apply (Hok p). by right.
  - destruct (Hok q). by left.
Qed.

Lemma manifest_loop_raise (l : list (string * Node)) (acc : gmap string Z) p :
  (p, NoAccess) ∈ l →
  manifest_loop l acc = Raise (Exception "PermissionError" "Permission denied").
Proof.
  revert acc. induction l as [|[q n] l IH]; intros acc Hin; simpl.
  - by apply elem_of_nil in Hin.
  - apply elem_of_cons in Hin as [Heq|Hin].
    + by inversion Heq.
    + destruct n as [|f|]; simpl; auto.
Qed.

Lemma manifest_loop_raise_inv (l : list (string * Node)) (acc : gmap string Z) e :
  manifest_loop l acc = Raise e →
  e = Exception "PermissionError" "Permission denied" ∧ ∃ p, (p, NoAccess) ∈ l.
Proof.
  revert acc. induction l as [|[q n] l IH]; intros acc; simpl; [discriminate|].
  destruct n as [|f|]; simpl.
  - intros (-> & p & Hp)%IH. split; [done|]. exists p. by right.
  - intros (-> & p & Hp)%IH. split; [done|]. exists p. by right.
  - intros [= <-]. split; [done|]. exists q. by left.
Qed.

Lemma compute_manifest_raise_inv fs root e :
  _compute_manifest_from_files fs root = Raise e →
  e = Exception "PermissionError" "Permission denied"
  ∧ ∃ p, fs !! p = Some NoAccess ∧ Path.under root p = true.
Proof.
  intros (-> & p & Hp)%manifest_loop_raise_inv. split; [done|].
  exists p. by apply elem_of_rglob_sorted.
Qed.

Lemma compute_manifest_raise fs root p :
  fs !! p = Some NoAccess → Path.under root p = true →
  _compute_manifest_from_files fs root
  = Raise (Exception "PermissionError" "Permission denied").
Proof.
  intros Hp Hu. apply (manifest_loop_raise _ _ p). by apply elem_of_rglob_sorted.
Qed.

Lemma compute_manifest_ok fs root :
  accessible fs root → ∃ m, _compute_manifest_from_files fs root = Ok m.
Proof.
  intros Hacc. eexists. apply manifest_loop_ok.
  intros p [Hp Hu]%elem_of_rglob_sorted. by apply (Hacc p).
Qed.

Lemma compute_manifest_accessible fs root m :
  _compute_manifest_from_files fs root = Ok m → accessible fs root.
Proof.
  intros Hm p Hu Hp. by rewrite (compute_manifest_raise _ _ _ Hp Hu) in Hm.
Qed.

(** One entry per regular file below the root, holding its modification
    time cut to whole seconds. *)
Lemma lookup_compute_manifest fs root m p :
  _compute_manifest_from_files fs root = Ok m →
  m !! p =
    match fs !! p with
    | Some (Reg f) =>
        if Path.under root p then Some (Py.int_of_float (st_mtime f)) else None
    | _ => None
    end.
Proof.
  intros Hm. pose proof (compute_manifest_accessible _ _ _ Hm) as Hacc.
  unfold _compute_manifest_from_files in Hm. rewrite manifest_loop_ok in Hm.
  2:{ intros q [Hq Hu]%elem_of_rglob_sorted. by apply (Hacc q). }
  injection Hm as <-.
  destruct (fs !! p) as [[|f|]|] eqn:Hp; [| destruct (Path.under root p) eqn:Hu | |].
  2:{ apply foldl_record_file; [apply NoDup_rglob_sorted_fst|].
      by apply elem_of_rglob_sorted. }
  all: rewrite foldl_record_other; [apply lookup_empty|];
    intros f' Hin; apply elem_of_rglob_sorted in Hin as [? ?]; congruence.
Qed.

Lemma compute_manifest_Some fs root m p z :
  _compute_manifest_from_files fs root = Ok m →
  m !! p = Some z ↔
  ∃ f, fs !! p = Some (Reg f) ∧ Path.under root p = true
       ∧ z = Py.int_of_float (st_mtime f).
Proof.
  intros Hm. rewrite (lookup_compute_manifest _ _ _ _ Hm). split.
  - destruct (fs !! p) as [[|f|]|]; try discriminate.
    destruct (Path.under root p); [|discriminate].
    intros [= <-]. eauto.
  - intros (f & -> & -> & ->). done.
Qed.

Lemma compute_manifest_empty fs root m :
  _compute_manifest_from_files fs root = Ok m →
  m = ∅ ↔ ∀ p f, fs !! p = Some (Reg f) → Path.under root p = false.
Proof.
  intros Hm. split.
  - intros He p f Hp. destruct (Path.under root p) eqn:Hu; [|done].
    assert (m !! p = Some (Py.int_of_float (st_mtime f))) as H
      by (apply (compute_manifest_Some _ _ _ _ _ Hm); eauto).
    rewrite He, lookup_empty in H. discriminate.
  - intros H. apply map_eq. intros p.
    rewrite lookup_empty, (lookup_compute_manifest _ _ _ _ Hm).
    destruct (fs !! p) as [[|f|]|] eqn:Hp; try done.
    by rewrite (H p f Hp).
Qed.

(** What was loaded from a manifest of integers equals a computed
    manifest exactly when the two maps are equal. *)
Lemma json_eqb_ints (m new : gmap string Z) :
  json_eqb (JsonObject (JmInt <$> m)) new = bool_decide (m = new).
Proof.
  unfold json_eqb. rewrite dom_fmap_L.
  destruct (decide (m = new)) as [->|Hne].
  - rewrite (bool_decide_eq_true_2 (new = new)) by done.
    rewrite (bool_decide_eq_true_2 (dom new = dom new)) by done. simpl.
    apply bool_decide_eq_true_2.
    intros k v. rewrite lookup_fmap. intros Hk.
    destruct (new !! k) as [z|]; [|discriminate]. injection Hk as <-. simpl.
    by apply bool_decide_eq_true_2.
  - rewrite (bool_decide_eq_false_2 (m = new)) by done.
    apply andb_false_iff.
    destruct (decide (dom m = dom new)) as [Hdom|Hdom];
      [right|left; by apply bool_decide_eq_false_2].
    apply bool_decide_eq_false_2. intros Hall. apply Hne, map_eq. intros k.
    destruct (m !! k) as [z|] eqn:Hk.
    + specialize (Hall k (JmInt z)). rewrite lookup_fmap, Hk in Hall.
      specialize (Hall eq_refl). simpl in Hall.
      assert (is_Some (new !! k)) as [z' Hz'].
      { apply elem_of_dom. rewrite <- Hdom. apply elem_of_dom. eauto. }
      rewrite Hz' in Hall. simpl in Hall. apply bool_decide_eq_true_1 in Hall.
      by rewrite Hz', Hall.
    + symmetry. apply not_elem_of_dom. rewrite <- Hdom. by apply not_elem_of_dom.
Qed.

Lemma json_eqb_empty (new : gmap string Z) :
  json_eqb (JsonObject ∅) new = bool_decide (new = ∅).
Proof.
  change (JsonObject ∅) with (JsonObject (JmInt <$> (∅ : gmap string Z))).
  rewrite json_eqb_ints. apply bool_decide_ext. split; congruence.
Qed.

End Manifest.

(** ** The extraction pass *)

Section ExtractorFacts.

Variable PdfReader : bool.

Implicit Types (fs : gmap string Node) (p : string) (n : Node) (d : Document).

Lemma load_loop_inv entries docs0 docs :
  load_loop PdfReader entries docs0 = Ok docs →
  (∀ x, x ∈ entries → ∃ o, load_file PdfReader x.1 x.2 = Ok o)
  ∧ docs = (docs0 ++ omap (emitted PdfReader) entries)%list.
Proof.
  revert docs0. induction entries as [|[p n] entries IH]; intros docs0; simpl.
  - intros [= <-]. split; [intros x Hx; by apply elem_of_nil in Hx|].
    by rewrite app_nil_r.
  - unfold emitted at 1. simpl.
    destruct (load_file PdfReader p n) as [o|e] eqn:Hl; simpl; [|discriminate].
    intros H. apply IH in H as [Hall ->]. split.
    + intros x [->|Hx]%elem_of_cons; eauto.
    + destruct o; [by rewrite <- app_assoc|done].
Qed.

Lemma load_loop_ok entries docs0 :
  (∀ x, x ∈ entries → ∃ o, load_file PdfReader x.1 x.2 = Ok o) →
  load_loop PdfReader entries docs0 = Ok (docs0 ++ omap (emitted PdfReader) entries)%list.
Proof.
  revert docs0. induction entries as [|[p n] entries IH]; intros docs0 Hall; simpl.
  - by rewrite app_nil_r.
  - destruct (Hall (p, n)) as [o Ho]; [by left|]. simpl in Ho.
    unfold emitted at 1. simpl. rewrite Ho. simpl.
    rewrite IH by (intros x Hx; apply Hall; by right).
    destruct o; [by rewrite <- app_assoc|done].
Qed.

Lemma load_loop_raise entries docs0 x e :
  x ∈ entries → load_file PdfReader x.1 x.2 = Raise e →
  ∃ e', load_loop PdfReader entries docs0 = Raise e'.
Proof.
  intros Hx He.
  destruct (load_loop PdfReader entries docs0) as [docs|e'] eqn:Hl; [|eauto].
  apply load_loop_inv in Hl as [Hall _].
  destruct (Hall x Hx) as [o Ho]. congruence.
Qed.

(** A PDF never makes the pass raise. *)
Lemma load_pdf_total p f : ∃ step, load_pdf PdfReader p f = Ok step.
Proof.
  unfold load_pdf. destruct PdfReader; [|eauto].
  destruct (pdf_try f); simpl; eauto.
Qed.

(** Whatever a file emits is a document whose source is its own path. *)
Lemma load_file_source p n d :
  load_file PdfReader p n = Ok (Some d) → metadata d = {["source" := p]}.
Proof.
  unfold load_file. destruct n as [|f|]; simpl; [discriminate| |discriminate].
  repeat case_bool_decide.
  - destruct (load_text f); simpl; [|discriminate]. by intros [= <-].
  - destruct (load_pdf PdfReader p f) as [[|t]|]; simpl; try discriminate.
    by intros [= <-].
  - discriminate.
Qed.

Lemma elem_of_documents fs root docs d :
  load_local_documents PdfReader fs root = Ok docs →
  d ∈ docs ↔
  ∃ p f, fs !! p = Some (Reg f) ∧ Path.under root p = true
         ∧ load_file PdfReader p (Reg f) = Ok (Some d).
Proof.
  unfold load_local_documents. intros [Hall ->]%load_loop_inv. simpl.
  rewrite list_elem_of_omap. split.
  - intros ([p n] & Hin & Hem). unfold emitted in Hem. simpl in Hem.
    apply elem_of_rglob_sorted in Hin as [Hp Hu].
    destruct (load_file PdfReader p n) as [o|] eqn:Hl; [|discriminate].
    subst o. destruct n as [|f|]; [discriminate| |discriminate]. eauto.
  - intros (p & f & Hp & Hu & Hl). exists (p, Reg f). split.
    + by apply elem_of_rglob_sorted.
    + unfold emitted. simpl. by rewrite Hl.
Qed.

(** The pass has examined every entry below the root when it returns. *)
Lemma load_local_documents_accessible fs root docs :
  load_local_documents PdfReader fs root = Ok docs → accessible fs root.
Proof.
  unfold load_local_documents. intros [Hall _]%load_loop_inv p Hu Hp.
  destruct (Hall (p, NoAccess)) as [o Ho]; [by apply elem_of_rglob_sorted|].
  discriminate.
Qed.



Lemma document_source fs root docs d :
  load_local_documents PdfReader fs root = Ok docs → d ∈ docs →
  ∃ p f, metadata d = {["source" := p]} ∧ fs !! p = Some (Reg f)
         ∧ Path.under root p = true.
Proof.
  intros Hl Hd. apply (elem_of_documents _ _ _ _ Hl) in Hd
    as (p & f & Hp & Hu & Hf).
  exists p, f. eauto using load_file_source.
Qed.

End ExtractorFacts.

(** ** Building the index *)

Section BuildFacts.

Variable cfg : Config.
Variable policy : StorePolicy.
Variable PdfReader : bool.
Variable RecursiveCharacterTextSplitter : Z → Z → Result (string → list string).

Local Abbreviation build := (build_index cfg policy PdfReader RecursiveCharacterTextSplitter).
Local Abbreviation split := (_split_documents cfg RecursiveCharacterTextSplitter).

Lemma build_index_inv root dir w h w' :
  build root dir w = (Ok h, w') →
  ∃ docs splits,
    load_local_documents PdfReader (fs w) root = Ok docs ∧ docs ≠ []
    ∧ split docs = Ok splits
    ∧ h = {| handle_dir := dir; can_embed := true |}
    ∧ w' = built cfg policy splits root dir w.
Proof.
  unfold build_index, built.
  destruct (load_local_documents PdfReader (fs w) root) as [docs|e] eqn:Hl;
    [|discriminate].
  case_bool_decide; [discriminate|].
  destruct (split docs) as [splits|e] eqn:Hs; [|discriminate].
  simpl. destruct (_compute_manifest_from_files (fs w) root) as [m|e]; [|discriminate].
  intros [= <- <-]. by exists docs, splits.
Qed.

(** The manifest of a root whose extraction pass returned can be computed. *)
Lemma loaded_manifest_ok fs root docs :
  load_local_documents PdfReader fs root = Ok docs →
  ∃ m, _compute_manifest_from_files fs root = Ok m.
Proof. intros Hl. by eapply compute_manifest_ok, load_local_documents_accessible. Qed.

Lemma build_index_run root dir w docs splits :
  load_local_documents PdfReader (fs w) root = Ok docs → docs ≠ [] →
  split docs = Ok splits →
  build root dir w
  = (Ok {| handle_dir := dir; can_embed := true |}, built cfg policy splits root dir w).
Proof.
  intros Hl Hd Hs. unfold build_index, built. rewrite Hl.
  rewrite bool_decide_eq_false_2 by done. rewrite Hs. simpl.
  by destruct (loaded_manifest_ok _ _ _ Hl) as [m ->].
Qed.

Lemma built_fs splits root dir w : fs (built cfg policy splits root dir w) = fs w.
Proof.
  unfold built, _write_manifest, mkdir. simpl.
  destruct (_compute_manifest_from_files (fs w) root); [|done]. by case_match.
Qed.

Lemma built_manifest splits root dir w m :
  _compute_manifest_from_files (fs w) root = Ok m →
  manifest_file (built cfg policy splits root dir w) = MfJson m.
Proof. unfold built. simpl. by intros ->. Qed.

Lemma built_chroma splits root dir w :
  chroma (built cfg policy splits root dir w) !! dir
  = Some (stored policy (default [] (chroma w !! dir)) splits).
Proof.
  unfold built, _write_manifest, mkdir, dir_exists. simpl.
  destruct (_compute_manifest_from_files (fs w) root); simpl; [|apply lookup_insert_eq].
  case_bool_decide as Hex; simpl; [apply lookup_insert_eq|].
  rewrite lookup_insert_ne; [apply lookup_insert_eq|].
  intros Heq. apply Hex. rewrite Heq, lookup_insert_eq. eauto.
Qed.

(** A failed build leaves the world as it found it: the manifest of a
    root whose extraction pass returned is computed without error, so no
    failure of the model follows the writing of the store. *)
Lemma build_index_raise root dir w e w' :
  build root dir w = (Raise e, w') → w' = w.
Proof.
  unfold build_index.
  destruct (load_local_documents PdfReader (fs w) root) as [docs|e0] eqn:Hl;
    [|congruence].
  case_bool_decide; [congruence|].
  destruct (split docs) as [splits|e0]; [|congruence]. simpl.
  by destruct (loaded_manifest_ok _ _ _ Hl) as [m ->].
Qed.


(** The staleness check returns exactly when every entry below the root
    can be examined. *)
Lemma needs_reindex_total root w :
  accessible (fs w) root → ∃ b, needs_reindex root w = Ok b.
Proof.
  intros [m Hm]%compute_manifest_ok. unfold needs_reindex, _read_manifest.
  rewrite Hm. destruct (open_json_load (manifest_file w)); simpl; eauto.
Qed.

Lemma needs_reindex_raise root w p :
  fs w !! p = Some NoAccess → Path.under root p = true →
  needs_reindex root w = Raise (Exception "PermissionError" "Permission denied").
Proof.
  intros Hp Hu. unfold needs_reindex, _read_manifest.
  rewrite (compute_manifest_raise _ _ _ Hp Hu).
  by destruct (open_json_load (manifest_file w)).
Qed.


Lemma needs_reindex_read root w old new :
  _read_manifest w = Ok old →
  _compute_manifest_from_files (fs w) root = Ok new →
  needs_reindex root w = Ok (negb (json_eqb old new)).
Proof. unfold needs_reindex. by intros -> ->. Qed.

Lemma needs_reindex_stored root w m :
  manifest_file w = MfJson m →
  needs_reindex root w
  = (new ← _compute_manifest_from_files (fs w) root; Ok (bool_decide (m ≠ new))).
Proof.
  unfold needs_reindex, _read_manifest. intros ->.
  destruct (_compute_manifest_from_files (fs w) root) as [new|]; [|done].
  change (Ok (negb (json_eqb (JsonObject (JmInt <$> m)) new))
          = Ok (bool_decide (m ≠ new))).
  rewrite json_eqb_ints. f_equal. destruct (decide (m = new)) as [->|Hne].
  - by rewrite bool_decide_eq_true_2, bool_decide_eq_false_2 by auto.
  - by rewrite bool_decide_eq_false_2, bool_decide_eq_true_2 by auto.
Qed.

End BuildFacts.

(** ** Staleness detection *)

Section Staleness.

Variable cfg : Config.
Variable policy : StorePolicy.
Variable PdfReader : bool.
Variable RecursiveCharacterTextSplitter : Z → Z → Result (string → list string).

Local Abbreviation build := (build_index cfg policy PdfReader RecursiveCharacterTextSplitter).





(** C4 (amended). Over a root whose entries can all be examined, a
    manifest that is missing, unreadable or not parseable is read as the
    empty manifest and the staleness check does not raise: it answers
    true when the root holds a regular file and false when it holds
    none. A manifest that parses to something that is not an object is
    kept as it is, and the check answers true. *)
Theorem needs_reindex_without_manifest root w :
  accessible (fs w) root →
  (manifest_file w = MfMissing ∨ manifest_file w = MfUnreadable
   ∨ manifest_file w = MfCorrupt →
   _read_manifest w = Ok (JsonObject ∅)
   ∧ ((∃ p f, fs w !! p = Some (Reg f) ∧ Path.under root p = true) →
      needs_reindex root w = Ok true)
   ∧ ((∀ p f, fs w !! p = Some (Reg f) → Path.under root p = false) →
      needs_reindex root w = Ok false))
  ∧ (manifest_file w = MfForeign JsonOther →
     _read_manifest w = Ok JsonOther ∧ needs_reindex root w = Ok true)
  ∧ (∃ b, needs_reindex root w = Ok b).
Proof.
  intros Hacc. destruct (compute_manifest_ok _ _ Hacc) as [m Hm].
  split; [|split; [|by apply needs_reindex_total]].
  - intros Hmf.
    assert (_read_manifest w = Ok (JsonObject ∅)) as Hread.
    { unfold _read_manifest. by destruct Hmf as [->| [->| ->]]. }
    split; [done|].
    rewrite (needs_reindex_read _ _ _ _ Hread Hm), json_eqb_empty.
    split.
    + intros (p & f & Hp & Hu).
      rewrite bool_decide_eq_false_2; [done|]. intros He.
      pose proof (proj1 (compute_manifest_empty _ _ _ Hm) He p f Hp) as Hu'.
      congruence.
    + intros Hnone. rewrite bool_decide_eq_true_2; [done|].
      by apply (compute_manifest_empty _ _ _ Hm).
  - intros Hmf.
    assert (_read_manifest w = Ok JsonOther) as Hread
      by (unfold _read_manifest; by rewrite Hmf).
    split; [done|]. by rewrite (needs_reindex_read _ _ _ _ Hread Hm).
Qed.

(** C9 (amended). The manifest persisted by a successful build has one
    entry per regular file below the root, whatever its type, holding
    that file's modification time in whole seconds; the source of every
    Document of the build is among its keys. *)
Theorem manifest_after_build root dir w h w' :
  build root dir w = (Ok h, w') →
  ∃ manifest docs,
    manifest_file w' = MfJson manifest
    ∧ load_local_documents PdfReader (fs w) root = Ok docs
    ∧ (∀ p z, manifest !! p = Some z ↔
              ∃ f, fs w !! p = Some (Reg f) ∧ Path.under root p = true
                   ∧ z = Py.int_of_float (st_mtime f))
    ∧ (∀ d, d ∈ docs →
            ∃ p, metadata d !! "source" = Some p ∧ is_Some (manifest !! p)).
Proof.
  intros (docs & splits & Hl & _ & _ & _ & ->)%build_index_inv.
  destruct (loaded_manifest_ok _ _ _ _ Hl) as [m0 Hm0].
  exists m0, docs.
  split; [by apply built_manifest|]. split; [done|]. split.
  - intros p z. by apply compute_manifest_Some.
  - intros d Hd.
    destruct (document_source _ _ _ _ _ Hl Hd) as (p & f & Hm & Hp & Hu).
    exists p. rewrite Hm, lookup_singleton_eq. split; [done|].
    exists (Py.int_of_float (st_mtime f)).
    apply (compute_manifest_Some _ _ _ _ _ Hm0). eauto.
Qed.

Lemma pairs_of_stored found documents :
  pairs_of (stored policy found documents)
  = match policy with
    | Recreate => pairs_of documents
    | Add => pairs_of found ∪ pairs_of documents
    end.
Proof.
  unfold pairs_of. destruct policy; simpl; [done|].
  by rewrite fmap_app, list_to_set_app_L.
Qed.

Lemma index_pairs_built splits root dir w :
  index_pairs (built cfg policy splits root dir w) dir
  = match policy with
    | Recreate => pairs_of splits
    | Add => index_pairs w dir ∪ pairs_of splits
    end.
Proof. unfold index_pairs. rewrite built_chroma. apply pairs_of_stored. Qed.

(** C1. Two consecutive builds over unchanged source files: the second
    succeeds as the first did, on the same Documents and chunks. With a
    store that recreates the collection, the index directory then holds
    exactly the split of the current Documents, whatever it held before.
    The (source, content) pairs are those the first build left, also with
    a store that adds to what it finds when nothing else wrote to the
    directory between the two builds. *)
Theorem rebuild_idempotent root dir w h1 w1 w1' :
  build root dir w = (Ok h1, w1) →
  fs w1' = fs w1 →
  ∃ h2 w2 docs splits,
    build root dir w1' = (Ok h2, w2)
    ∧ load_local_documents PdfReader (fs w1') root = Ok docs
    ∧ _split_documents cfg RecursiveCharacterTextSplitter docs = Ok splits
    ∧ (policy = Recreate →
       chroma w2 !! dir = Some splits ∧ chroma w1 !! dir = Some splits)
    ∧ (policy = Recreate ∨ chroma w1' !! dir = chroma w1 !! dir →
       index_pairs w2 dir = index_pairs w1 dir).
Proof.
  intros (docs & splits & Hl & Hd & Hs & _ & ->)%build_index_inv Hfs.
  rewrite built_fs in Hfs. rewrite <- Hfs in Hl.
  eexists _, _, docs, splits. split; [by eapply build_index_run|].
  split; [done|]. split; [done|]. split.
  - intros Hpol. rewrite !built_chroma. by rewrite Hpol.
  - intros Hsame. rewrite !index_pairs_built.
    assert (policy = Recreate ∨ policy = Add) as Hcase by (destruct policy; auto).
    destruct Hsame as [Hpol | Hsame]; [by rewrite Hpol|].
    destruct Hcase as [Hpol | Hpol]; [by rewrite Hpol|].
    assert (index_pairs w1' dir = index_pairs (built cfg policy splits root dir w) dir)
      as -> by (unfold index_pairs; by rewrite Hsame).
    rewrite index_pairs_built, Hpol.
    by rewrite <- (assoc_L (∪)), (idemp_L (∪) (pairs_of splits)).
Qed.

End Staleness.

(** ** Loading or building *)

Section Cascade.

Variable cfg : Config.
Variable policy : StorePolicy.
Variable PdfReader : bool.
Variable RecursiveCharacterTextSplitter : Z → Z → Result (string → list string).
Variable Chroma : World → string → Binding → Result Handle.

Local Abbreviation build := (build_index cfg policy PdfReader RecursiveCharacterTextSplitter).
Local Abbreviation load :=
  (load_or_build cfg policy PdfReader RecursiveCharacterTextSplitter Chroma).
Local Abbreviation failed :=
  (RuntimeErrorWith "Failed to load or build Chroma vector store. Errors: ").


End Cascade.

(** ** Failures during extraction *)

Section Resilience.

Variable PdfReader : bool.

Lemma extract_pages_raises pre msg post acc :
  extract_pages ((PageText <$> pre) ++ PageRaises msg :: post) acc
  = Raise (Exception "Exception" msg).
Proof. revert acc. induction pre as [|t pre IH]; intros acc; simpl; auto. Qed.

Lemma load_file_total p n :
  n ≠ NoAccess →
  (∀ f, n = Reg f →
        Py.lower (Path.suffix p) ∈ [".txt"; ".md"; ".html"] → readable f = true) →
  ∃ o, load_file PdfReader p n = Ok o.
Proof.
  intros Hn Hr. destruct n as [|f|]; [by eexists| |done].
  unfold load_file. simpl.
  case_bool_decide as Htext; [|case_bool_decide as Hpdf; [|eauto]].
  - unfold load_text, read_text. rewrite (Hr f) by done.
    destruct (as_utf8 f); simpl; eauto.
  - destruct (load_pdf_total PdfReader p f) as [step ->]. simpl.
    destruct step; eauto.
Qed.

(** C6 (amended). When every entry below the root can be examined and
    every text, markdown and HTML file below it can be opened, the pass
    returns its Documents. A PDF never raises: one whose reader or page
    extraction fails becomes a Document whose content is a placeholder
    holding the error message. A text file that can be opened is read as
    UTF-8, or as latin-1 when it does not decode. *)
Theorem extraction_pass_resilient fs root :
  accessible fs root →
  (∀ p f, fs !! p = Some (Reg f) → Path.under root p = true →
          Py.lower (Path.suffix p) ∈ [".txt"; ".md"; ".html"] →
          readable f = true) →
  (∃ docs, load_local_documents PdfReader fs root = Ok docs)
  ∧ (∀ p f, ∃ step, load_pdf PdfReader p f = Ok step)
  ∧ (∀ p f msg,
       PdfReader = true → Py.lower (Path.suffix p) = ".pdf" →
       (as_pdf f = PdfOpenRaises msg
        ∨ ∃ pre post, as_pdf f = PdfPages ((PageText <$> pre) ++ PageRaises msg :: post)) →
       load_file PdfReader p (Reg f)
       = Ok (Some (source_document
                     ("[Failed to extract PDF " ++ p ++ ": " ++ msg ++ "]") p)))
  ∧ (∀ f, readable f = true →
          load_text f = Ok (default (as_latin1 f) (as_utf8 f))).
Proof.
  intros Hacc Hread. split; [|split; [|split]].
  - eexists. apply load_loop_ok. intros [p n] [Hp Hu]%elem_of_rglob_sorted.
    simpl. apply load_file_total.
    + intros ->. by apply (Hacc p).
    + intros f -> Hs. eauto.
  - apply load_pdf_total.
  - intros p f msg -> Hs Hf. unfold load_file. rewrite Hs. simpl.
    unfold load_pdf, pdf_try.
    destruct Hf as [-> | (pre & post & ->)]; [done|].
    by rewrite extract_pages_raises.
  - intros f Hr. unfold load_text, read_text. rewrite Hr.
    by destruct (as_utf8 f).
Qed.

End Resilience.

(** ** Configuration errors *)

Section ConfigurationErrors.

Variable cfg : Config.
Variable policy : StorePolicy.
Variable PdfReader : bool.
Variable RecursiveCharacterTextSplitter : Z → Z → Result (string → list string).
Variable Chroma : World → string → Binding → Result Handle.
Variable int_of_str : string → option Z.

(** C7 (amended). A build over a root that yields no Document raises at
    once and writes nothing. Loading the configuration compares neither
    value with the other: any two integers are accepted as window and
    overlap. A failure of [load_or_build] during start-up is swallowed:
    start-up completes with the store it had. *)
Theorem configuration_errors :
  (∀ root dir w,
     load_local_documents PdfReader (fs w) root = Ok [] →
     build_index cfg policy PdfReader RecursiveCharacterTextSplitter root dir w
     = (Raise (Exception "RuntimeError"
                 "No documents found to index. Add files in ./data/ and try again."), w))
  ∧ (∀ ROOT getenv size overlap,
       int_getenv int_of_str (getenv "RAG_CHUNK_SIZE") 1000 = Ok size →
       int_getenv int_of_str (getenv "RAG_CHUNK_OVERLAP") 200 = Ok overlap →
       ∃ c, load_config int_of_str ROOT getenv = Ok c
            ∧ CHUNK_SIZE c = size ∧ CHUNK_OVERLAP c = overlap)
  ∧ (∀ vector_store w e w',
       load_or_build cfg policy PdfReader RecursiveCharacterTextSplitter Chroma
         (DATA_DIR cfg) (CHROMA_DIR cfg) w = (Raise e, w') →
       startup_event cfg policy PdfReader RecursiveCharacterTextSplitter Chroma vector_store w
       = (vector_store, w')).
Proof.
  split; [|split].
  - intros root dir w Hl. unfold build_index. by rewrite Hl.
  - intros ROOT getenv size overlap Hs Ho. unfold load_config.
    rewrite Hs, Ho. simpl. eauto.
  - intros vs w e w' Hl. unfold startup_event. by rewrite Hl.
Qed.

End ConfigurationErrors.

(** ** Retrieval diagnostics *)

Section Diagnostics.









Lemma unindexed_names_nil data_files : unindexed_names data_files [] = data_files.
Proof.
  unfold unindexed_names. induction data_files as [|x l IH]; [done|].
  rewrite filter_cons_True by apply not_elem_of_nil. by rewrite IH.
Qed.

Variable cfg : Config.
Variable similarity_search : World → Handle → string → Z → Result (list Document).
Variable get_metadatas : World → Handle → Result (list (gmap string string)).

Local Abbreviation retrieval := (retrieve cfg similarity_search get_metadatas).

Lemma retrieve_inv vs text k w r :
  retrieval vs text k w = Ok r →
  ∃ retrieved,
    similarity_search w vs text k = Ok retrieved
    ∧ mapM query_source retrieved = Ok (sources r)
    ∧ all_sources r = read_sources get_metadatas vs w
    ∧ data_files r = read_files cfg w
    ∧ no_text_files r = unindexed_names (data_files r) (all_sources r).
Proof.
  unfold retrieve, read_sources, read_files.
  destruct (similarity_search w vs text k) as [retrieved|]; [|discriminate].
  simpl. destruct (mapM query_source retrieved) as [srcs|] eqn:Hsrcs; [|discriminate].
  simpl. destruct (get_metadatas w vs) as [metadatas|]; simpl.
  all: destruct (enumerated_names (fs w) (DATA_DIR cfg)) as [names|]; simpl.
  all: intros [= <-]; simpl; exists retrieved; repeat split; try done.
  all: try (case_bool_decide as He; [try rewrite He|]); done.
Qed.

(** A [QuerySource] is made for every chunk that carries a source. *)
Lemma sources_made (retrieved : list Document) :
  (∀ d, d ∈ retrieved → is_Some (metadata d !! "source")) →
  ∃ srcs, mapM query_source retrieved = Ok srcs
          ∧ source <$> srcs = (λ d, default "" (metadata d !! "source")) <$> retrieved
          ∧ snippet <$> srcs = snippet_of <$> retrieved.
Proof.
  induction retrieved as [|d l IH]; intros Hsrc; simpl; [by exists []|].
  destruct IH as (srcs & -> & Hs & Hn); [intros d' Hd'; apply Hsrc; by right|].
  destruct (Hsrc d) as [src Hd]; [by left|].
  unfold query_source at 1. rewrite Hd. simpl.
  eexists. split; [done|]. split.
  - by rewrite !fmap_cons, Hs.
  - by rewrite !fmap_cons, Hn.
Qed.

Lemma retrieve_run vs text k w retrieved :
  similarity_search w vs text k = Ok retrieved →
  (∀ d, d ∈ retrieved → is_Some (metadata d !! "source")) →
  ∃ r, retrieval vs text k w = Ok r.
Proof.
  intros Hs (srcs & Hsrcs & _)%sources_made. unfold retrieve. rewrite Hs. simpl.
  rewrite Hsrcs. simpl.
  destruct (get_metadatas w vs); simpl;
    destruct (enumerated_names (fs w) (DATA_DIR cfg)); simpl; eauto.
Qed.

(** What the retrieval block does when reading the stored metadata
    raises: with a source on every retrieved chunk it returns, one
    [QuerySource] per chunk; the list of indexed names is empty, the root
    is still enumerated, and every enumerated name is listed as present
    but unindexed. When it is the enumeration that raises, both lists of
    file names are empty. *)
Lemma metadata_failure_effect vs text k w retrieved :
  similarity_search w vs text k = Ok retrieved →
  (∀ d, d ∈ retrieved → is_Some (metadata d !! "source")) →
  ∃ r, retrieval vs text k w = Ok r
       ∧ source <$> sources r = (λ d, default "" (metadata d !! "source")) <$> retrieved
       ∧ data_files r = read_files cfg w
       ∧ (∀ e, get_metadatas w vs = Raise e →
               all_sources r = [] ∧ no_text_files r = data_files r)
       ∧ (∀ e, enumerated_names (fs w) (DATA_DIR cfg) = Raise e →
               data_files r = [] ∧ no_text_files r = []).
Proof.
  intros Hs Hsrc. destruct (retrieve_run _ _ _ _ _ Hs Hsrc) as [r Hr]. exists r.
  split; [done|].
  destruct (retrieve_inv _ _ _ _ _ Hr) as (retrieved' & Hs' & Hsrcs & Hall & Hdf & Hno).
  assert (retrieved' = retrieved) as -> by congruence.
  destruct (sources_made _ Hsrc) as (srcs & Hsrcs' & Hsources & _).
  assert (srcs = sources r) as -> by congruence.
  split; [done|]. split; [done|]. split.
  - intros e He. unfold read_sources in Hall. rewrite He in Hall. split; [done|].
    rewrite Hno, Hall. apply unindexed_names_nil.
  - intros e He. unfold read_files in Hdf. rewrite He in Hdf. split; [done|].
    by rewrite Hno, Hdf.
Qed.



End Diagnostics.

(** ** PDFs without usable text *)

Section ShortPdf.







Variable cfg : Config.
Variable policy : StorePolicy.
Variable RecursiveCharacterTextSplitter : Z → Z → Result (string → list string).
Variable similarity_search : World → Handle → string → Z → Result (list Document).
Variable get_metadatas : World → Handle → Result (list (gmap string string)).


End ShortPdf.

(** ** The statements on the example worlds *)

(** C1 on the example: building again over the indexed world leaves the
    same pairs. *)
Lemma rebuild_idempotent_witness :
  build_index Example.cfg Recreate true Example.whole_text_splitter
    "/app/data" "/app/chroma_db" Example.fresh = (Ok Example.store, Example.indexed)
  ∧ ∃ w2, (build_index Example.cfg Recreate true Example.whole_text_splitter
             "/app/data" "/app/chroma_db" Example.indexed).2 = w2
          ∧ index_pairs w2 "/app/chroma_db"
            = index_pairs Example.indexed "/app/chroma_db".
Proof.
  split; [vm_compute; reflexivity|].
  destruct (rebuild_idempotent Example.cfg Recreate true Example.whole_text_splitter
              "/app/data" "/app/chroma_db" Example.fresh Example.store
              Example.indexed Example.indexed
              ltac:(vm_compute; reflexivity) eq_refl)
    as (h2 & w2 & docs & splits & Hb & _ & _ & _ & Hpairs).
  exists w2. rewrite Hb. split; [reflexivity|exact (Hpairs (or_introl eq_refl))].
Defined.

(** With a store that adds to what it finds, the second build doubles the
    chunks and leaves the pairs as they were. *)
Example adding_store_keeps_pairs :
  let w1 := (build_index Example.cfg Add true Example.whole_text_splitter
               "/app/data" "/app/chroma_db" Example.fresh).2 in
  let w2 := (build_index Example.cfg Add true Example.whole_text_splitter
               "/app/data" "/app/chroma_db" w1).2 in
  chroma w1 !! "/app/chroma_db" = Some [source_document "hello world" "/app/data/a.txt"]
  ∧ chroma w2 !! "/app/chroma_db"
    = Some [source_document "hello world" "/app/data/a.txt";
            source_document "hello world" "/app/data/a.txt"]
  ∧ index_pairs w2 "/app/chroma_db" = index_pairs w1 "/app/chroma_db".
Proof. repeat split; vm_compute; reflexivity. Qed.




(** C4 on the example: no manifest and files below the root. *)
Lemma needs_reindex_without_manifest_witness :
  manifest_file Example.fresh = MfMissing
  ∧ needs_reindex "/app/data" Example.fresh = Ok true.
Proof.
  split; [reflexivity|].
  destruct (needs_reindex_without_manifest "/app/data" Example.fresh) as (Hempty & _).
  { eapply compute_manifest_accessible. vm_compute. reflexivity. }
  destruct (Hempty (or_introl eq_refl)) as (_ & Hfiles & _).
  apply Hfiles.
  exists "/app/data/a.txt", (mkFile (1002 # 10) true (Some "hello world") "hello world"
                              (PdfOpenRaises "EOF marker not found")).
  split; vm_compute; reflexivity.
Defined.

(** C4 as stated fails twice: with no manifest and no file below the
    root the check answers false, and with no manifest and an entry below
    the root that cannot be examined it raises. *)
Lemma missing_manifest_false_or_raises :
  manifest_file Example.bare = MfMissing
  ∧ needs_reindex "/app/data" Example.bare = Ok false
  ∧ manifest_file Example.sealed = MfMissing
  ∧ fs Example.sealed !! "/app/data/vault/key.bin" = Some NoAccess
  ∧ needs_reindex "/app/data" Example.sealed
    = Raise (Exception "PermissionError" "Permission denied").
Proof. repeat split; vm_compute; reflexivity. Qed.

(** A manifest file holding a JSON list is not read as empty: the check
    answers true over a root without files. *)
Example list_manifest_forces_rebuild :
  needs_reindex "/app/data" Example.bare_list = Ok true.
Proof. vm_compute. reflexivity. Qed.



(** C6 on the example: every entry can be examined and every text file
    opens, so the pass returns. *)
Lemma extraction_pass_resilient_witness :
  ∃ docs, load_local_documents true (fs Example.fresh) "/app/data" = Ok docs.
Proof.
  refine (proj1 (extraction_pass_resilient true (fs Example.fresh) "/app/data" _ _)).
  - eapply compute_manifest_accessible. vm_compute. reflexivity.
  - intros p f Hp _ _. unfold Example.fresh in Hp. simpl in Hp.
    repeat (rewrite lookup_insert in Hp; case_decide;
            [injection Hp as <- || discriminate Hp; reflexivity|]).
    rewrite lookup_empty in Hp. discriminate Hp.
Defined.

(** C6 as stated fails: a text file that cannot be opened makes the whole
    pass raise, and so does an entry that cannot be examined, next to a
    text file that opens. *)
Lemma refused_file_or_entry_aborts :
  fs Example.locked !! "/app/data/b.txt" = Some (Example.locked_file 4)
  ∧ Py.lower (Path.suffix "/app/data/b.txt") = ".txt"
  ∧ load_local_documents true (fs Example.locked) "/app/data"
    = Raise (Exception "PermissionError" "Permission denied")
  ∧ fs Example.sealed !! "/app/data/vault/key.bin" = Some NoAccess
  ∧ load_local_documents true (fs Example.sealed) "/app/data"
    = Raise (Exception "PermissionError" "Permission denied").
Proof. repeat split; vm_compute; reflexivity. Qed.

(** C7 on the example: the environment sets an overlap of 2000 against a
    window of 1000 and the configuration loads. *)
Lemma configuration_errors_witness :
  ∃ c, load_config Example.parse_decimal "/app" Example.overlap_env = Ok c
       ∧ CHUNK_SIZE c = 1000 ∧ CHUNK_OVERLAP c = 2000.
Proof.
  destruct (configuration_errors Example.cfg Recreate true Example.whole_text_splitter
              Example.Chroma_broken Example.parse_decimal) as (_ & Hload & _).
  apply Hload; vm_compute; reflexivity.
Defined.

(** C7 as stated fails: an overlap above the window is accepted when the
    configuration loads, and start-up completes although the build it
    triggers is refused by the splitter. *)
Lemma overlap_not_checked_at_startup :
  load_config Example.parse_decimal "/app" Example.overlap_env = Ok Example.wide_overlap
  ∧ CHUNK_OVERLAP Example.wide_overlap >= CHUNK_SIZE Example.wide_overlap
  ∧ startup_event Example.wide_overlap Recreate true Example.whole_text_splitter
      Example.Chroma_broken None Example.fresh = (None, Example.fresh).
Proof. split; [|split]; vm_compute; [reflexivity|discriminate|reflexivity]. Qed.

(** C8. The code at the failing input: over the indexed example world
    the metadata read raises. The query goes through, with its one
    source, but the diagnostics are not empty: every file below the root,
    the indexed [a.txt] included, is listed as present but unindexed.
    The sibling failure does what the claim says: when it is the
    enumeration of the root that raises, there is no file list and no
    list of unindexed files. *)
Theorem failed_read_flags_every_file :
  Example.metadatas_unavailable Example.indexed Example.store
  = Raise (Exception "InternalError" "database is locked")
  ∧ match retrieve Example.cfg Example.first_k Example.metadatas_unavailable
            Example.store "hello" 3 Example.indexed with
    | Ok r => sources r = [mkQuerySource "/app/data/a.txt" "hello world"]
              ∧ all_sources r = []
              ∧ data_files r = ["a.txt"; "b.pdf"; "img.png"]
              ∧ no_text_files r = ["a.txt"; "b.pdf"; "img.png"]
    | Raise _ => False
    end
  ∧ enumerated_names (fs Example.sealed) "/app/data"
    = Raise (Exception "PermissionError" "Permission denied")
  ∧ match retrieve Example.cfg Example.first_k Example.stored_metadatas
            Example.store "hello" 3 Example.sealed with
    | Ok r => data_files r = [] ∧ no_text_files r = []
    | Raise _ => False
    end.
Proof.
  split; [vm_compute; reflexivity|]. split; [vm_compute; auto|].
  split; [vm_compute; reflexivity|]. vm_compute. auto.
Qed.

(** C9 on the example: the manifest written by the build. *)
Lemma manifest_after_build_witness :
  ∃ manifest, manifest_file Example.indexed = MfJson manifest
              ∧ manifest !! "/app/data/a.txt" = Some 100.
Proof.
  destruct (manifest_after_build Example.cfg Recreate true Example.whole_text_splitter
              "/app/data" "/app/chroma_db" Example.fresh Example.store
              Example.indexed ltac:(vm_compute; reflexivity))
    as (manifest & docs & Hm & _ & Hkeys & _).
  exists manifest. split; [exact Hm|]. apply Hkeys.
  exists (mkFile (1002 # 10) true (Some "hello world") "hello world"
            (PdfOpenRaises "EOF marker not found")).
  repeat split; vm_compute; reflexivity.
Defined.

(** C9 as stated fails: the manifest has entries for files that produced
    no Document. *)
Lemma manifest_lists_unindexed_files :
  build_index Example.cfg Recreate true Example.whole_text_splitter
    "/app/data" "/app/chroma_db" Example.fresh = (Ok Example.store, Example.indexed)
  ∧ load_local_documents true (fs Example.fresh) "/app/data"
    = Ok [source_document "hello world" "/app/data/a.txt"]
  ∧ manifest_file Example.indexed
    = MfJson (<["/app/data/a.txt" := 100]>
                (<["/app/data/b.pdf" := 5]> (<["/app/data/img.png" := 7]> ∅))).
Proof. repeat split; vm_compute; reflexivity. Qed.



(** * Further properties of the indexer *)

(** ** Order and provenance of the Documents *)

Section PathOrder.

Lemma leb_trans (x y z : string) :
  String.leb x y = true → String.leb y z = true → String.leb x z = true.
Proof.
  intros Hxy Hyz. apply Is_true_true.
  change (String.le x z). transitivity y; apply Is_true_true; done.
Qed.

Lemma parts_leb_total (a b : list string) :
  Path.parts_leb a b = true ∨ Path.parts_leb b a = true.
Proof.
  revert b. induction a as [|x a IH]; intros [|y b]; simpl; auto.
  rewrite (String.eqb_sym y x).
  destruct (String.eqb_spec x y) as [->|Hne]; [apply IH|apply String.leb_total].
Qed.

Lemma parts_leb_trans (a b c : list string) :
  Path.parts_leb a b = true → Path.parts_leb b c = true → Path.parts_leb a c = true.
Proof.
  revert b c. induction a as [|x a IH]; intros [|y b] [|z c]; simpl; try done.
  destruct (String.eqb_spec x y) as [->|Hxy].
  - destruct (String.eqb_spec y z) as [->|Hyz]; [apply IH|done].
  - destruct (String.eqb_spec y z) as [->|Hyz].
    { intros H1 _. by rewrite (proj2 (String.eqb_neq x z)). }
    intros H1 H2. destruct (String.eqb_spec x z) as [->|Hxz].
    + destruct Hyz. by apply String.leb_antisym.
    + by apply (leb_trans x y z).
Qed.

Global Instance path_le_total : Total Path.le.
Proof.
  intros p q. unfold Path.le.
  destruct (parts_leb_total (Py.split "/" p) (Py.split "/" q)) as [H|H];
    rewrite H; simpl; auto.
Qed.

Global Instance path_le_trans : Transitive Path.le.
Proof.
  intros p q r. unfold Path.le. rewrite !Is_true_true. apply parts_leb_trans.
Qed.

Lemma rglob_sorted_StronglySorted (fs : gmap string Node) root :
  StronglySorted Path.le (rglob_sorted fs root).*1.
Proof.
  unfold rglob_sorted.
  apply (StronglySorted_fmap fst (λ x y : string * Node, Path.le x.1 y.1)); [done|].
  apply StronglySorted_merge_sort.
  - intros x y z. apply path_le_trans.
  - intros x y. apply path_le_total.
Qed.

End PathOrder.

Section Provenance.

Variable PdfReader : bool.

Lemma StronglySorted_sublist {A} (R : relation A) (l1 l2 : list A) :
  l1 `sublist_of` l2 → StronglySorted R l2 → StronglySorted R l1.
Proof.
  induction 1 as [|x l1 l2 Hsub IH|x l1 l2 Hsub IH]; [done| |].
  - rewrite !StronglySorted_cons. intros [Hall Hs]. split; [|auto].
    apply Forall_forall. intros y Hy.
    rewrite Forall_forall in Hall. apply Hall.
    by apply (elem_of_sublist l1).
  - rewrite StronglySorted_cons. intros [_ Hs]. auto.
Qed.

(** The paths of the entries that give a Document, in the order of the
    entries. *)
Lemma emitted_paths (entries : list (string * Node)) :
  ∃ paths, source_of <$> omap (emitted PdfReader) entries = Some <$> paths
           ∧ paths `sublist_of` entries.*1.
Proof.
  induction entries as [|[p n] entries (paths & Heq & Hsub)]; simpl.
  - by exists [].
  - unfold emitted at 1. simpl.
    destruct (load_file PdfReader p n) as [[d|]|] eqn:Hl; simpl.
    + exists (p :: paths). split; [|by apply sublist_skip].
      change (source_of d :: (source_of <$> omap (emitted PdfReader) entries)
              = Some p :: (Some <$> paths)).
      rewrite Heq. f_equal. unfold source_of.
      by rewrite (load_file_source _ _ _ _ Hl), lookup_singleton_eq.
    + exists paths. split; [done|by apply sublist_cons].
    + exists paths. split; [done|by apply sublist_cons].
Qed.

(** X1. The Documents of a pass come in the order of their paths, one
    per file at most: their sources are pairwise distinct and sorted the
    way [Path] objects compare. *)
Theorem documents_follow_paths (fs : gmap string Node) root docs :
  load_local_documents PdfReader fs root = Ok docs →
  ∃ paths, source_of <$> docs = Some <$> paths
           ∧ NoDup paths ∧ StronglySorted Path.le paths.
Proof.
  unfold load_local_documents. intros [_ ->]%load_loop_inv. simpl.
  destruct (emitted_paths (rglob_sorted fs root)) as (paths & Heq & Hsub).
  exists paths. split; [done|]. split.
  - eapply sublist_NoDup; [apply NoDup_rglob_sorted_fst|done].
  - eapply StronglySorted_sublist; [done|apply rglob_sorted_StronglySorted].
Qed.

Lemma load_file_suffix p n d :
  load_file PdfReader p n = Ok (Some d) →
  Py.lower (Path.suffix p) ∈ [".txt"; ".md"; ".html"; ".pdf"].
Proof.
  unfold load_file. destruct n as [|f|]; simpl; [discriminate| |discriminate].
  case_bool_decide as Htext; [|case_bool_decide as Hpdf; [|discriminate]]; intros _.
  - revert Htext. rewrite !elem_of_cons. tauto.
  - rewrite Hpdf, !elem_of_cons. tauto.
Qed.

(** X2. Every Document of a pass comes from a regular file below the
    root whose suffix, lowered, is [.txt], [.md], [.html] or [.pdf], and
    carries that file's path as its only metadata: directories and files
    of any other type never reach the index. *)
Theorem documents_only_from_supported_files (fs : gmap string Node) root docs d :
  load_local_documents PdfReader fs root = Ok docs →
  d ∈ docs →
  ∃ p f, metadata d = {["source" := p]}
         ∧ fs !! p = Some (Reg f)
         ∧ Path.under root p = true
         ∧ Py.lower (Path.suffix p) ∈ [".txt"; ".md"; ".html"; ".pdf"].
Proof.
  intros Hl Hd.
  apply (elem_of_documents _ _ _ _ _ Hl) in Hd as (p & f & Hp & Hu & Hf).
  exists p, f. split; [by eapply load_file_source|].
  split; [done|]. split; [done|]. by eapply load_file_suffix.
Qed.

End Provenance.

(** X3. Without pypdf no PDF is skipped or read: when the pass returns,
    every regular [.pdf] file below the root has its Document, whose
    content is the notice that pypdf is not installed. *)
Theorem pdf_placeholder_without_pypdf (fs : gmap string Node) root docs p f :
  load_local_documents false fs root = Ok docs →
  fs !! p = Some (Reg f) →
  Path.under root p = true →
  Py.lower (Path.suffix p) = ".pdf" →
  source_document ("[pypdf not installed; cannot extract PDF " ++ p ++ "]") p ∈ docs.
Proof.
  intros Hl Hp Hu Hs. apply (elem_of_documents _ _ _ _ _ Hl).
  exists p, f. split; [done|]. split; [done|].
  unfold load_file. rewrite Hs. reflexivity.
Qed.

(** ** What a build touches, and what the staleness check looks at *)

(** The manifest of a root is a function of the stamps below it. *)
Lemma compute_manifest_stamps (fs1 fs2 : gmap string Node) root :
  (∀ p, Path.under root p = true → stamp (fs1 !! p) = stamp (fs2 !! p)) →
  _compute_manifest_from_files fs1 root = _compute_manifest_from_files fs2 root.
Proof.
  intros Hsame.
  destruct (_compute_manifest_from_files fs1 root) as [m1|e1] eqn:H1,
           (_compute_manifest_from_files fs2 root) as [m2|e2] eqn:H2.
  - f_equal. apply map_eq. intros p.
    rewrite (lookup_compute_manifest _ _ _ p H1), (lookup_compute_manifest _ _ _ p H2).
    destruct (Path.under root p) eqn:Hu.
    + specialize (Hsame p Hu). unfold stamp in Hsame.
      destruct (fs1 !! p) as [[|f1|]|], (fs2 !! p) as [[|f2|]|]; congruence.
    + by destruct (fs1 !! p) as [[|f1|]|], (fs2 !! p) as [[|f2|]|].
  - apply compute_manifest_raise_inv in H2 as (_ & p & Hp & Hu).
    pose proof (compute_manifest_accessible _ _ _ H1 p Hu) as Hok.
    specialize (Hsame p Hu). rewrite Hp in Hsame. unfold stamp in Hsame.
    destruct (fs1 !! p) as [[|f1|]|]; done.
  - apply compute_manifest_raise_inv in H1 as (_ & p & Hp & Hu).
    pose proof (compute_manifest_accessible _ _ _ H2 p Hu) as Hok.
    specialize (Hsame p Hu). rewrite Hp in Hsame. unfold stamp in Hsame.
    destruct (fs2 !! p) as [[|f2|]|]; done.
  - apply compute_manifest_raise_inv in H1 as [-> _].
    by apply compute_manifest_raise_inv in H2 as [-> _].
Qed.

(** X4. The staleness check looks at nothing but the paths of the regular
    files below the root, the whole seconds of their modification times
    and the entries that cannot be examined: replacing the files by
    others that agree on these leaves its answer as it was, whatever
    their contents. *)
Theorem needs_reindex_content_blind root w files :
  (∀ p, Path.under root p = true → stamp (files !! p) = stamp (fs w !! p)) →
  needs_reindex root (with_fs w files) = needs_reindex root w.
Proof.
  intros Hsame. unfold needs_reindex, _read_manifest. simpl.
  by rewrite (compute_manifest_stamps files (fs w) root Hsame).
Qed.

Section BuildEffects.

Variable cfg : Config.
Variable policy : StorePolicy.
Variable PdfReader : bool.
Variable RecursiveCharacterTextSplitter : Z → Z → Result (string → list string).
Variable Chroma : World → string → Binding → Result Handle.

Local Abbreviation build := (build_index cfg policy PdfReader RecursiveCharacterTextSplitter).
Local Abbreviation ensure :=
  (_ensure_index_up_to_date cfg policy PdfReader RecursiveCharacterTextSplitter).

Lemma dir_exists_true w dir : dir_exists w dir = true ↔ is_Some (chroma w !! dir).
Proof. unfold dir_exists. by rewrite bool_decide_eq_true. Qed.

Lemma built_chroma_home splits root dir w m :
  _compute_manifest_from_files (fs w) root = Ok m →
  CHROMA_DIR cfg ≠ dir →
  chroma (built cfg policy splits root dir w) !! CHROMA_DIR cfg
  = Some (default [] (chroma w !! CHROMA_DIR cfg)).
Proof.
  intros Hm Hne. unfold built, _write_manifest, mkdir, dir_exists. simpl. rewrite Hm.
  case_bool_decide as Hex; simpl.
  - rewrite lookup_insert_ne in Hex by done. rewrite lookup_insert_ne by done.
    by destruct Hex as [l ->].
  - rewrite lookup_insert_eq. rewrite lookup_insert_ne in Hex by done.
    by rewrite (proj2 (eq_None_not_Some _) Hex).
Qed.

(** X6. With the index directories outside the data root, a successful
    build writes the manifest of the root at [MANIFEST_PATH], which lies
    in [CHROMA_DIR] whatever persist directory the build was given.
    [CHROMA_DIR] exists afterwards; when the store was written elsewhere,
    [CHROMA_DIR] was created empty if absent and its own collection is
    kept if present. *)
Theorem build_index_frame root dir w h w' :
  outside root dir → outside root (CHROMA_DIR cfg) →
  build root dir w = (Ok h, w') →
  (∃ m, _compute_manifest_from_files (fs w) root = Ok m
        ∧ manifest_file w' = MfJson m)
  ∧ dir_exists w' (CHROMA_DIR cfg) = true
  ∧ (CHROMA_DIR cfg ≠ dir →
     chroma w' !! CHROMA_DIR cfg = Some (default [] (chroma w !! CHROMA_DIR cfg))).
Proof.
  intros _ _ (docs & splits & Hl & _ & _ & _ & ->)%build_index_inv.
  destruct (loaded_manifest_ok _ _ _ _ Hl) as [m Hm].
  split; [exists m; split; [done|by apply built_manifest]|].
  split.
  - apply dir_exists_true. destruct (decide (CHROMA_DIR cfg = dir)) as [->|Hne].
    + rewrite built_chroma. eauto.
    + rewrite (built_chroma_home _ _ _ _ _ Hm) by done. eauto.
  - by apply (built_chroma_home _ _ _ _ m).
Qed.

Lemma needs_reindex_fresh splits root dir w m :
  _compute_manifest_from_files (fs w) root = Ok m →
  needs_reindex root (built cfg policy splits root dir w) = Ok false.
Proof.
  intros Hm.
  rewrite (needs_reindex_stored _ _ _ (built_manifest cfg policy splits root dir w m Hm)).
  rewrite built_fs, Hm. simpl. by rewrite bool_decide_eq_false_2 by auto.
Qed.

(** X7. With the index directories outside the data root, right after a
    successful build [load_or_build] on the same root and directory does
    not build again as long as one of the three ways of opening the store
    works: it returns the handle of one of them and leaves the world as
    the build left it. *)
Theorem load_after_build root dir w h w' b h' :
  outside root dir → outside root (CHROMA_DIR cfg) →
  build root dir w = (Ok h, w') →
  Chroma w' dir b = Ok h' →
  ∃ b0 h0, Chroma w' dir b0 = Ok h0
           ∧ load_or_build cfg policy PdfReader RecursiveCharacterTextSplitter Chroma
               root dir w' = (Ok h0, w').
Proof.
  intros _ _ (docs & splits & Hl & _ & _ & _ & ->)%build_index_inv Hopen.
  destruct (loaded_manifest_ok _ _ _ _ Hl) as [m Hm].
  unfold load_or_build, try_open.
  assert (dir_exists (built cfg policy splits root dir w) dir = true) as ->
    by (apply dir_exists_true; rewrite built_chroma; eauto).
  rewrite (needs_reindex_fresh _ _ _ _ _ Hm). simpl.
  destruct (Chroma _ dir ByEmbeddingFunction) as [h1|e1] eqn:H1; [by exists ByEmbeddingFunction, h1|].
  destruct (Chroma _ dir ByEmbedding) as [h2|e2] eqn:H2; [by exists ByEmbedding, h2|].
  destruct (Chroma _ dir NoEmbedding) as [h3|e3] eqn:H3; [by exists NoEmbedding, h3|].
  destruct b; congruence.
Qed.

(** X8. With [CHROMA_DIR] outside the data directory, once the
    freshness check before a query has succeeded it has settled: a store
    is held, the index is not stale, and running the check again changes
    nothing and returns the same store. *)
Theorem ensure_index_settles vector_store w vs' w' :
  outside (DATA_DIR cfg) (CHROMA_DIR cfg) →
  ensure vector_store w = (Ok vs', w') →
  is_Some vs'
  ∧ needs_reindex (DATA_DIR cfg) w' = Ok false
  ∧ ensure vs' w' = (Ok vs', w').
Proof.
  intros _. unfold _ensure_index_up_to_date.
  assert (∀ r, (match build (DATA_DIR cfg) (CHROMA_DIR cfg) w with
                | (Ok vs, w0) => (Ok (Some vs), w0)
                | (Raise e, w0) => (Raise e, w0)
                end) = (Ok r, w') →
               is_Some r ∧ needs_reindex (DATA_DIR cfg) w' = Ok false) as Hbuild.
  { intros r. destruct (build _ _ w) as [[h|e] w0] eqn:Hb; [|discriminate].
    intros [= <- <-].
    apply build_index_inv in Hb as (docs & splits & Hl & _ & _ & _ & ->).
    destruct (loaded_manifest_ok _ _ _ _ Hl) as [m Hm].
    split; [eauto|by eapply needs_reindex_fresh]. }
  intros Hrun.
  assert (is_Some vs' ∧ needs_reindex (DATA_DIR cfg) w' = Ok false) as [Hsome Hfresh].
  { destruct vector_store as [vs|]; [|by apply Hbuild].
    destruct (needs_reindex (DATA_DIR cfg) w) as [[|]|] eqn:Hn;
      [by apply Hbuild| |discriminate].
    injection Hrun as <- <-. eauto. }
  split; [done|]. split; [done|].
  destruct Hsome as [vs ->]. by rewrite Hfresh.
Qed.

Variable similarity_search : World → Handle → string → Z → Result (list Document).
Variable get_metadatas : World → Handle → Result (list (gmap string string)).

(** X9. While no store is held and the build fails, every query fails,
    with retrieval asked for or not: the build's message comes back as
    the detail of an [HTTPException], still no store is held, and the
    world is as the failed build left it. *)
Theorem query_fails_until_built use_rag text k w e w' :
  build (DATA_DIR cfg) (CHROMA_DIR cfg) w = (Raise e, w') →
  query cfg policy PdfReader RecursiveCharacterTextSplitter similarity_search
    get_metadatas use_rag text k None w
  = (Raise (Exception "HTTPException" (Exc_str e)), None, w').
Proof.
  intros Hb. unfold query, _ensure_index_up_to_date. by rewrite Hb.
Qed.

End BuildEffects.

(** ** Shape of what retrieval returns *)

Section RetrievalShape.

Lemma length_substring_0 n s : (String.length (String.substring 0 n s) ≤ n)%nat.
Proof.
  revert s. induction n as [|n IH]; intros [|c s]; simpl; try lia.
  specialize (IH s). lia.
Qed.

Lemma chars_substring_0 n s :
  list_ascii_of_string (String.substring 0 n s) = take n (list_ascii_of_string s).
Proof.
  revert s. induction n as [|n IH]; intros [|c s]; simpl; try done.
  by rewrite IH.
Qed.

Lemma chars_replace a b s :
  a ≠ b → a ∉ list_ascii_of_string (Py.replace a b s).
Proof.
  intros Hne. induction s as [|c s IH]; simpl; [apply not_elem_of_nil|].
  apply not_elem_of_cons. split; [|done].
  destruct (Ascii.eqb_spec c a) as [->|Hc]; congruence.
Qed.

(** X10. The snippet made for a retrieved chunk has at most 800
    characters and holds no line feed, whatever the chunk, and it is the
    snippet of the [QuerySource] returned for the chunk. *)
Theorem snippet_bounded (d : Document) :
  (String.length (snippet_of d) ≤ 800)%nat
  ∧ (ascii_of_nat 10 ∉ list_ascii_of_string (snippet_of d))
  ∧ (∀ q, query_source d = Ok q → snippet q = snippet_of d).
Proof.
  unfold snippet_of. split; [apply length_substring_0|]. split.
  - rewrite chars_substring_0. intros Hin.
    pose proof (elem_of_sublist _ _ _ Hin (sublist_take _ _)) as Hall.
    by apply chars_replace in Hall.
  - intros q. unfold query_source.
    destruct (metadata d !! "source"); [|discriminate]. by intros [= <-].
Qed.

Lemma sorted_StronglySorted (l : list string) : StronglySorted String.le (Py.sorted l).
Proof. unfold Py.sorted. apply StronglySorted_merge_sort; apply _. Qed.

Variable cfg : Config.
Variable similarity_search : World → Handle → string → Z → Result (list Document).
Variable get_metadatas : World → Handle → Result (list (gmap string string)).

(** X11. Whatever the metadata read does, the three diagnostic lists of
    a retrieval are in order: the indexed names are sorted and free of
    duplicates, the enumerated names are sorted, and the names reported as
    unindexed are a sublist of the enumerated ones. *)
Theorem diagnostic_lists_ordered vs text k w r :
  retrieve cfg similarity_search get_metadatas vs text k w = Ok r →
  StronglySorted String.le (all_sources r)
  ∧ NoDup (all_sources r)
  ∧ StronglySorted String.le (data_files r)
  ∧ no_text_files r `sublist_of` data_files r.
Proof.
  intros (retrieved & _ & _ & Hall & Hdf & Hno)%retrieve_inv.
  rewrite Hno. split; [|split; [|split]].
  - rewrite Hall. unfold read_sources.
    destruct (get_metadatas w vs); [apply sorted_StronglySorted|constructor].
  - rewrite Hall. unfold read_sources.
    destruct (get_metadatas w vs); [|constructor].
    unfold indexed_names, Py.sorted. rewrite merge_sort_Permutation.
    apply NoDup_elements.
  - rewrite Hdf. unfold read_files, enumerated_names.
    destruct (file_names _); simpl; [apply sorted_StronglySorted|constructor].
  - apply sublist_filter.
Qed.

End RetrievalShape.

(** * Properties of the request handlers *)

Section Handlers.

Import ChatStore Api.

(** X12. The token check lets a request through exactly when no token is
    configured (unset or empty) or the authorization header is the word
    [Bearer], a blank and the token, to the letter; with a token
    configured a request without the header is refused. *)
Theorem require_token_accepts (API_TOKEN authorization : option string) :
  _require_token API_TOKEN authorization = Ok tt ↔
  PyText.truthy API_TOKEN = false
  ∨ ∃ t, API_TOKEN = Some t ∧ authorization = Some ("Bearer " ++ t).
Proof.
  unfold _require_token. destruct (PyText.truthy API_TOKEN) eqn:Ht; [|by split; auto].
  destruct API_TOKEN as [t|]; [|discriminate]. simpl.
  case_bool_decide as Hh.
  - subst authorization. simpl. split; [|done]. intros _. right. by exists t.
  - rewrite orb_true_r. split; [discriminate|].
    intros [|(t' & [= <-] & ->)]; done.
Qed.




Lemma lookup_set_option {A} key (wrap : A → OptionValue) value o k :
  set_option key wrap value o !! k
  = if String.eqb key k then
      match value with Some v => Some (wrap v) | None => o !! k end
    else o !! k.
Proof.
  unfold set_option. destruct (String.eqb_spec key k) as [->|Hne].
  - destruct value; [by rewrite lookup_insert_eq|done].
  - destruct value; [by rewrite lookup_insert_ne|done].
Qed.

(** The options before the stop list is looked at. *)
Lemma lookup_stop_option (l : option (list string)) (o : gmap string OptionValue) k :
  match l with
  | Some ((_ :: _) as l) => <["stop" := OptStrings l]> o
  | _ => o
  end !! k
  = if String.eqb "stop" k then
      match l with
      | Some ((_ :: _) as l) => Some (OptStrings l)
      | _ => o !! k
      end
    else o !! k.
Proof.
  destruct (String.eqb_spec "stop" k) as [<-|Hne].
  - destruct l as [[|? ?]|]; [done| |done]. by rewrite lookup_insert_eq.
  - destruct l as [[|? ?]|]; [done| |done]. by rewrite lookup_insert_ne.
Qed.

(** The keys of the options, with the field each one carries. *)
Lemma llm_options_lookup req :
  llm_options req !! "temperature" = OptFloat <$> temperature req
  ∧ llm_options req !! "top_p" = OptFloat <$> top_p req
  ∧ llm_options req !! "top_k" = OptInt <$> top_k req
  ∧ llm_options req !! "repeat_penalty" = OptFloat <$> repeat_penalty req
  ∧ llm_options req !! "seed" = OptInt <$> seed req
  ∧ llm_options req !! "num_predict" = OptInt <$> max_tokens req
  ∧ llm_options req !! "num_ctx" = OptInt <$> num_ctx req
  ∧ llm_options req !! "mirostat" = OptInt <$> mirostat req
  ∧ llm_options req !! "mirostat_tau" = OptFloat <$> mirostat_tau req
  ∧ llm_options req !! "mirostat_eta" = OptFloat <$> mirostat_eta req
  ∧ llm_options req !! "stop"
    = match stop req with
      | Some ((_ :: _) as l) => Some (OptStrings l)
      | _ => None
      end
  ∧ llm_options req !! "max_tokens" = None.
Proof.
  unfold llm_options.
  repeat split;
    (rewrite lookup_stop_option; cbn [String.eqb Ascii.eqb Bool.eqb andb];
     repeat (rewrite lookup_set_option; cbn [String.eqb Ascii.eqb Bool.eqb andb]);
     rewrite lookup_empty;
     match goal with
     | |- _ = _ <$> ?x => by destruct x
     | _ => by destruct (stop req) as [[|? ?]|]
     end).
Qed.

(** The options hold no key but the eleven names. *)
Lemma llm_options_keys req k v :
  llm_options req !! k = Some v →
  k ∈ ["temperature"; "top_p"; "top_k"; "repeat_penalty"; "seed"; "num_predict";
       "num_ctx"; "mirostat"; "mirostat_tau"; "mirostat_eta"; "stop"].
Proof.
  unfold llm_options. rewrite lookup_stop_option.
  destruct (String.eqb_spec "stop" k) as [<-|_].
  { intros _. apply (bool_decide_unpack _). by vm_compute. }
  repeat (rewrite lookup_set_option;
          match goal with
          | |- context [String.eqb ?key k] =>
              destruct (String.eqb_spec key k) as [<-|_];
              [intros _; apply (bool_decide_unpack _); by vm_compute|]
          end).
  by rewrite lookup_empty.
Qed.

(** X14. Each model parameter of a request that is set, and only those,
    is forwarded under its own name, [max_tokens] under the name
    [num_predict]; a parameter set to zero is forwarded, an empty stop
    list is not; the options hold no other key; and when nothing is
    forwarded the options argument is [None] instead of an empty object. *)
Theorem llm_options_forwarded req :
  (llm_options req !! "temperature" = OptFloat <$> temperature req
   ∧ llm_options req !! "top_p" = OptFloat <$> top_p req
   ∧ llm_options req !! "top_k" = OptInt <$> top_k req
   ∧ llm_options req !! "repeat_penalty" = OptFloat <$> repeat_penalty req
   ∧ llm_options req !! "seed" = OptInt <$> seed req
   ∧ llm_options req !! "num_predict" = OptInt <$> max_tokens req
   ∧ llm_options req !! "num_ctx" = OptInt <$> num_ctx req
   ∧ llm_options req !! "mirostat" = OptInt <$> mirostat req
   ∧ llm_options req !! "mirostat_tau" = OptFloat <$> mirostat_tau req
   ∧ llm_options req !! "mirostat_eta" = OptFloat <$> mirostat_eta req
   ∧ llm_options req !! "stop"
     = match stop req with
       | Some ((_ :: _) as l) => Some (OptStrings l)
       | _ => None
       end
   ∧ llm_options req !! "max_tokens" = None)
  ∧ (∀ k, is_Some (llm_options req !! k) →
          k ∈ ["temperature"; "top_p"; "top_k"; "repeat_penalty"; "seed";
               "num_predict"; "num_ctx"; "mirostat"; "mirostat_tau";
               "mirostat_eta"; "stop"])
  ∧ (options_argument req = None ↔
     temperature req = None ∧ top_p req = None ∧ top_k req = None
     ∧ repeat_penalty req = None ∧ seed req = None ∧ max_tokens req = None
     ∧ num_ctx req = None ∧ mirostat req = None ∧ mirostat_tau req = None
     ∧ mirostat_eta req = None ∧ (stop req = None ∨ stop req = Some [])).
Proof.
  split; [apply llm_options_lookup|].
  split; [intros k [v Hv]; by eapply llm_options_keys|].
  destruct (llm_options_lookup req)
    as (H1 & H2 & H3 & H4 & H5 & H6 & H7 & H8 & H9 & H10 & H11 & _).
  unfold options_argument. case_bool_decide as Hd.
  - split; [intros _|done]. apply dom_empty_inv_L in Hd. rewrite Hd in *.
    rewrite lookup_empty in *.
    repeat split;
      try match goal with |- ?x = None => by destruct x end.
    destruct (stop req) as [[|? ?]|]; auto; discriminate.
  - split; [discriminate|].
    intros (E1 & E2 & E3 & E4 & E5 & E6 & E7 & E8 & E9 & E10 & E11).
    destruct Hd. unfold llm_options.
    rewrite E1, E2, E3, E4, E5, E6, E7, E8, E9, E10. simpl.
    destruct E11 as [-> | ->]; apply dom_empty_L.
Qed.

End Handlers.

(** * Properties of the chat store *)

Section ChatStoreFacts.

Import ChatStore Api.

Implicit Types (s : Store) (chat : Chat) (i j : string).

Lemma files_ensure_dir s : files (_ensure_dir s) = files s.
Proof. done. Qed.

Lemma save_chat_ok now chat i s :
  id chat = Some i → i ≠ "" →
  save_chat now chat s
  = (Ok {| id := id chat; title := title chat; messages := messages chat;
           updated_at := Some now |},
     Some (<[i := Parsed (JChat {| id := id chat; title := title chat;
                                   messages := messages chat;
                                   updated_at := Some now |})]> (files s))).
Proof.
  intros Hi Hne. unfold save_chat. rewrite Hi.
  by rewrite bool_decide_eq_false_2.
Qed.

Lemma files_Some (m : gmap string ChatFile) : files (Some m) = m.
Proof. done. Qed.

Lemma get_chat_eq i s :
  get_chat i s
  = (match files s !! i with
     | None => Ok None
     | Some Unparseable => Raise (Exception "JSONDecodeError" "Expecting value")
     | Some (Parsed j) => Ok (Some j)
     end, _ensure_dir s).
Proof.
  unfold get_chat. rewrite files_ensure_dir.
  by destruct (files s !! i) as [[|?]|].
Qed.

Lemma get_chat_insert i j f s :
  j ≠ i → (get_chat j (Some (<[i := f]> (files s)))).1 = (get_chat j s).1.
Proof.
  intros Hj. rewrite !get_chat_eq, files_Some. cbn [fst].
  by rewrite lookup_insert_ne.
Qed.


(** X15. Saving a chat that has an id stamps it with the time of the
    save and stores it under that id: reading the id back returns the
    stamped chat, whatever was stored there before, and every other chat
    reads as it did. *)
Theorem save_then_get now chat i s :
  id chat = Some i → i ≠ "" → plain i = true →
  ∃ chat' s',
    save_chat now chat s = (Ok chat', s')
    ∧ id chat' = Some i ∧ title chat' = title chat ∧ messages chat' = messages chat
    ∧ updated_at chat' = Some now
    ∧ get_chat i s' = (Ok (Some (JChat chat')), s')
    ∧ (∀ j, plain j = true → j ≠ i → (get_chat j s').1 = (get_chat j s).1).
Proof.
  intros Hi Hne _. eexists _, _. split; [by apply save_chat_ok|].
  repeat split; try done.
  - by rewrite get_chat_eq, files_Some, lookup_insert_eq.
  - intros j _ Hj. by apply get_chat_insert.
Qed.

(** X16. For a chat whose id, if any, is a file name, [save_chat] raises
    exactly when the id is missing or empty; it then raises [ValueError]
    and stores nothing, though the chat directory has been created. *)
Theorem save_chat_requires_id now chat s :
  (∀ i, id chat = Some i → plain i = true) →
  ((∃ e, (save_chat now chat s).1 = Raise e) ↔ PyText.truthy (id chat) = false)
  ∧ (PyText.truthy (id chat) = false →
     save_chat now chat s
     = (Raise (Exception "ValueError" "Chat must include an id"), _ensure_dir s)).
Proof.
  intros _. unfold save_chat, PyText.truthy. destruct (id chat) as [i|]; simpl.
  - case_bool_decide; simpl; split; try done.
    + split; eauto.
    + split; [by intros [e [=]]|done].
  - split; [split; eauto|done].
Qed.


#[local] Instance newer_first_total : Total newer_first.
Proof. intros a b. unfold newer_first. lia. Qed.

#[local] Instance newer_first_trans : Transitive newer_first.
Proof. intros a b c. unfold newer_first. lia. Qed.

Lemma elem_of_list_chats s chat :
  chat ∈ (list_chats s).1 ↔
  ∃ name, files s !! name = Some (Parsed (JChat chat))
          ∧ PyText.truthy (id chat) = true.
Proof.
  unfold list_chats. cbn [fst]. rewrite merge_sort_Permutation, list_elem_of_omap.
  rewrite files_ensure_dir. split.
  - intros ([name f] & Hin%elem_of_map_to_list & Hl). simpl in Hl.
    destruct f as [|[c|]]; simpl in Hl; try discriminate.
    destruct (PyText.truthy (id c)) eqn:Ht; [|discriminate].
    injection Hl as <-. eauto.
  - intros (name & Hf & Ht). exists (name, Parsed (JChat chat)).
    split; [by apply elem_of_map_to_list|]. simpl. by rewrite Ht.
Qed.

(** X18. Over chat files whose fields have the types the API writes,
    [list_chats] returns, newest first by their [updated_at] (zero when
    absent), one entry for each file of the directory that holds a chat
    object with a non-empty id, and nothing else: the result is a
    rearrangement of what the files contribute, so that a chat held by two
    files is listed twice. Files that do not parse or hold something else
    contribute nothing, and no file is changed. *)
Theorem list_chats_newest_first s :
  StronglySorted newer_first (list_chats s).1
  ∧ (list_chats s).1 ≡ₚ omap (λ x, listed x.2) (map_to_list (files s))
  ∧ (∀ f chat, listed f = Some chat ↔
               f = Parsed (JChat chat) ∧ PyText.truthy (id chat) = true)
  ∧ (∀ chat, chat ∈ (list_chats s).1 ↔
             ∃ name, files s !! name = Some (Parsed (JChat chat))
                     ∧ PyText.truthy (id chat) = true)
  ∧ files (list_chats s).2 = files s.
Proof.
  split; [|split; [|split; [|split; [apply elem_of_list_chats|done]]]].
  - unfold list_chats. cbn [fst]. apply StronglySorted_merge_sort; apply _.
  - unfold list_chats. cbn [fst]. rewrite merge_sort_Permutation.
    by rewrite files_ensure_dir.
  - intros f chat. split.
    + destruct f as [|[c|]]; simpl; try discriminate.
      destruct (PyText.truthy (id c)) eqn:Ht; [|discriminate].
      by intros [= <-].
    + intros [-> Ht]. simpl. by rewrite Ht.
Qed.

(** X19. [create_chat] always succeeds. The new chat has the id [chat-]
    followed by the UUID, the given title or [New chat] when the title is
    absent or empty, the given messages (an empty list included) or the
    single welcome message when none are given, and the time of the save
    as its [updated_at]; it can be read back at once and is listed. *)
Theorem create_chat_stored uuid_hex now_ms now_created now_saved
    (new_title : option string) (new_messages : option (list Message)) s :
  plain uuid_hex = true →
  ∃ chat s',
    create_chat uuid_hex now_ms now_created now_saved new_title new_messages s
    = (Ok chat, s')
    ∧ id chat = Some ("chat-" ++ uuid_hex)
    ∧ title chat = Some (if PyText.truthy new_title then default "" new_title
                         else "New chat")
    ∧ messages chat = Some (default [_default_welcome_message now_ms] new_messages)
    ∧ updated_at chat = Some now_saved
    ∧ get_chat ("chat-" ++ uuid_hex) s' = (Ok (Some (JChat chat)), s')
    ∧ chat ∈ (list_chats s').1.
Proof.
  intros _. unfold create_chat.
  eexists _, _. split; [by apply (save_chat_ok _ _ ("chat-" ++ uuid_hex))|].
  split; [done|]. split; [done|].
  split; [by destruct new_messages|]. split; [done|].
  split.
  - by rewrite get_chat_eq, files_Some, lookup_insert_eq.
  - apply elem_of_list_chats. exists ("chat-" ++ uuid_hex). simpl.
    by rewrite lookup_insert_eq.
Qed.


End ChatStoreFacts.

(** * Properties of the chat handlers *)

Section ChatHandlers.

Import ChatStore Api.

Implicit Types (s : Store) (i : string) (ids refs : list string).





End ChatHandlers.

(** * Properties of the generation collaborator *)

Section CommandDetection.

Import Ollama.

Implicit Types (cmds pre : list string) (c : string).

(** The second loop of [prefer]: the commands not yet listed, as found. *)
Lemma append_new_spec cmds pre :
  NoDup pre →
  ∃ rest,
    foldl (λ (preferred : list string) c,
             if bool_decide (c ∈ preferred) then preferred else (preferred ++ [c])%list)
          pre cmds = (pre ++ rest)%list
    ∧ NoDup (pre ++ rest)%list
    ∧ rest `sublist_of` cmds
    ∧ (∀ c, c ∈ cmds → c ∈ (pre ++ rest)%list).
Proof.
  revert pre. induction cmds as [|c cmds IH]; intros pre Hnd; simpl.
  - exists []. rewrite app_nil_r. split; [done|]. split; [done|].
    split; [done|]. intros c Hc; by apply elem_of_nil in Hc.
  - case_bool_decide as Hin.
    + destruct (IH pre Hnd) as (rest & -> & Hnd' & Hsub & Hall).
      exists rest. split; [done|]. split; [done|]. split.
      * by apply sublist_cons.
      * intros x [->|Hx]%elem_of_cons; [|by apply Hall].
        apply elem_of_app. by left.
    + destruct (IH (pre ++ [c])%list) as (rest & -> & Hnd' & Hsub & Hall).
      { apply NoDup_app. split; [done|]. split; [|apply NoDup_singleton].
        intros x Hx ->%list_elem_of_singleton. done. }
      exists (c :: rest). rewrite <- app_assoc in *. simpl in *.
      split; [done|]. split; [done|]. split.
      * by apply sublist_skip.
      * intros x [->|Hx]%elem_of_cons; [|by apply Hall].
        apply elem_of_app. right. by left.
Qed.

(** The first loop of [prefer]: the three known commands that are
    available, in their fixed order. *)
Lemma known_first_spec cmds :
  foldl (λ (preferred : list string) c,
           if bool_decide (c ∈ cmds) && negb (bool_decide (c ∈ preferred))
           then (preferred ++ [c])%list else preferred)
        [] ["run"; "predict"; "generate"]
  = filter (λ c, c ∈ cmds) ["run"; "predict"; "generate"].
Proof.
  cbn [foldl].
  rewrite !filter_cons, filter_nil.
  destruct (decide ("run" ∈ cmds)) as [H1|H1],
           (decide ("predict" ∈ cmds)) as [H2|H2],
           (decide ("generate" ∈ cmds)) as [H3|H3];
    rewrite ?(bool_decide_eq_true_2 _ H1), ?(bool_decide_eq_false_2 _ H1),
            ?(bool_decide_eq_true_2 _ H2), ?(bool_decide_eq_false_2 _ H2),
            ?(bool_decide_eq_true_2 _ H3), ?(bool_decide_eq_false_2 _ H3);
    reflexivity.
Qed.

Lemma prefer_spec cmds :
  ∃ rest,
    prefer cmds = (filter (λ c, c ∈ cmds) ["run"; "predict"; "generate"] ++ rest)%list
    ∧ NoDup (prefer cmds)
    ∧ rest `sublist_of` cmds
    ∧ (∀ c, c ∈ prefer cmds ↔ c ∈ cmds).
Proof.
  unfold prefer. rewrite known_first_spec.
  set (pre := filter (λ c, c ∈ cmds) ["run"; "predict"; "generate"]).
  assert (NoDup pre) as Hnd.
  { apply NoDup_filter. by apply (bool_decide_unpack _). }
  destruct (append_new_spec cmds pre Hnd) as (rest & -> & Hnd' & Hsub & Hall).
  exists rest. split; [done|]. split; [done|]. split; [done|].
  intros c. split; [|apply Hall].
  intros [Hc|Hc]%elem_of_app; [|by apply (elem_of_sublist rest)].
  by apply list_elem_of_filter in Hc as [Hc _].
Qed.

(** The loop over the lines: before the heading nothing is collected,
    the heading starts the collection, and the first blank line ends it. *)
Lemma scan_skip pre lines cmds :
  Forall (λ l, heads_list l = false) pre →
  scan (pre ++ lines) false cmds = scan lines false cmds.
Proof.
  induction 1 as [|l pre Hl _ IH]; [done|].
  simpl. unfold heads_list in Hl. by rewrite Hl.
Qed.

Lemma scan_header header lines collect cmds :
  heads_list header = true →
  scan (header :: lines) collect cmds = scan lines true cmds.
Proof. intros Hh. simpl. unfold heads_list in Hh. by rewrite Hh. Qed.

Lemma scan_collect body rest cmds :
  Forall (λ l, heads_list l = false ∧ blank l = false) body →
  (rest = [] ∨ ∃ b r, rest = b :: r ∧ heads_list b = false ∧ blank b = true) →
  scan (body ++ rest) true cmds = (cmds ++ omap command_of body)%list.
Proof.
  intros Hbody Hrest. revert cmds.
  induction Hbody as [|l body [Hh Hb] _ IH]; intros cmds.
  - simpl. rewrite app_nil_r.
    destruct Hrest as [->|(b & r & -> & Hh & Hb)]; [done|].
    simpl. unfold heads_list, blank in *. by rewrite Hh, Hb.
  - simpl. unfold heads_list, blank in Hh, Hb. rewrite Hh, Hb.
    unfold command_of.
    destruct (PyText.split_ws (Py.strip (Py.rstrip l))) as [|part parts]; simpl.
    + apply IH.
    + rewrite IH. by rewrite <- app_assoc.
Qed.

Lemma scan_help pre header body rest :
  Forall (λ l, heads_list l = false) pre →
  heads_list header = true →
  Forall (λ l, heads_list l = false ∧ blank l = false) body →
  (rest = [] ∨ ∃ b r, rest = b :: r ∧ heads_list b = false ∧ blank b = true) →
  scan (pre ++ header :: body ++ rest) false [] = omap command_of body.
Proof.
  intros Hpre Hh Hbody Hrest.
  by rewrite scan_skip, scan_header, scan_collect.
Qed.

(** X23. The command detection raises the error that names the missing
    CLI when [ollama] cannot be started. When the help command completes
    it returns a list that is never empty and names no command twice:
    those of [run], [predict] and [generate] that it holds first and in
    this order, then commands other than these three. It is these three
    when the help text has no list of available commands or the list names
    nothing. Where the lines of the lower-cased help text are a part
    without the heading, the first heading, a run of non-blank lines and
    either nothing or a blank line and the rest, the list holds exactly
    the first words of the run, and the commands after the preferred ones
    keep the order of the run. *)
Theorem detected_commands_preference :
  _detect_ollama_commands FileNotFound = Raise cli_not_found
  ∧ ∀ rc stdout stderr,
      let text := Py.lower (output stdout stderr) in
      ∃ l rest,
        _detect_ollama_commands (Completed rc stdout stderr) = Ok l
        ∧ l ≠ [] ∧ NoDup l
        ∧ l = (filter (λ c, c ∈ l) ["run"; "predict"; "generate"] ++ rest)%list
        ∧ (∀ c, c ∈ rest → c ∉ ["run"; "predict"; "generate"])
        ∧ (PyText.contains "available commands" text = false →
           l = ["run"; "predict"; "generate"])
        ∧ ∀ pre header body tail,
            PyText.contains "available commands" text = true →
            PyText.splitlines text = (pre ++ header :: body ++ tail)%list →
            Forall (λ line, heads_list line = false) pre →
            heads_list header = true →
            Forall (λ line, heads_list line = false ∧ blank line = false) body →
            (tail = [] ∨ ∃ b r, tail = b :: r ∧ heads_list b = false ∧ blank b = true) →
            (omap command_of body = [] → l = ["run"; "predict"; "generate"])
            ∧ (omap command_of body ≠ [] →
               (∀ c, c ∈ l ↔ c ∈ omap command_of body)
               ∧ rest `sublist_of` omap command_of body).
Proof.
  split; [reflexivity|]. intros rc so se text. simpl.
  fold text.
  set (found := if PyText.contains "available commands" text
                then scan (PyText.splitlines text) false []
                else []).
  set (cmds := if bool_decide (found = []) then ["run"; "predict"; "generate"] else found).
  assert (cmds ≠ []) as Hne.
  { unfold cmds. case_bool_decide; done. }
  destruct (prefer_spec cmds) as (rest & Heq & Hnd & Hsub & Hall).
  exists (prefer cmds), rest. split; [done|]. split.
  { intros Hnil. destruct cmds as [|c cmds']; [done|].
    assert (c ∈ prefer (c :: cmds')) as Hc by (apply Hall; by left).
    rewrite Hnil in Hc. by apply elem_of_nil in Hc. }
  split; [done|]. split.
  { rewrite Heq at 1. f_equal. apply list_filter_iff. intros c. by rewrite Hall. }
  split.
  { intros c Hc Hk.
    assert (c ∈ filter (λ c, c ∈ cmds) ["run"; "predict"; "generate"]) as Hpre.
    { apply list_elem_of_filter. split; [by apply (elem_of_sublist rest)|done]. }
    rewrite Heq in Hnd. apply NoDup_app in Hnd as (_ & Hdis & _).
    by apply (Hdis c). }
  split.
  { intros Hno. unfold cmds, found. rewrite Hno. reflexivity. }
  intros pre header body tail Hyes Hlines Hpre Hh Hbody Htail.
  assert (found = omap command_of body) as Hfound.
  { unfold found. rewrite Hyes, Hlines. by apply scan_help. }
  split.
  - intros Hnone. unfold cmds. rewrite Hfound, Hnone. reflexivity.
  - intros Hsome. assert (cmds = omap command_of body) as Hcmds.
    { unfold cmds. rewrite Hfound. by rewrite bool_decide_eq_false_2. }
    rewrite <- Hcmds. split; [apply Hall|done].
Qed.

(** The help text of the sample installation names four commands. *)
Lemma detected_commands_preference_witness :
  ∃ l, _detect_ollama_commands (Completed 0 Sample.help_text "") = Ok l
       ∧ ∀ c, c ∈ l ↔ c ∈ ["serve"; "run"; "pull"; "list"].
Proof.
  destruct detected_commands_preference as [_ H].
  destruct (H 0 Sample.help_text "") as (l & rest & Hl & _ & _ & _ & _ & _ & Hfound).
  exists l. split; [exact Hl|].
  destruct (Hfound
    ["large language model runner"; ""; "usage:"; "  ollama [flags]";
     "  ollama [command]"; ""]
    "available commands:"
    ["  serve       start ollama"; "  run         run a model";
     "  pull        pull a model from a registry"; "  list        list models"]
    [""; "flags:"; "  -h, --help      help for ollama"]) as [_ Hf].
  - vm_compute. reflexivity.
  - vm_compute. reflexivity.
  - repeat constructor.
  - vm_compute. reflexivity.
  - repeat constructor.
  - right. eexists _, _. split; [reflexivity|]. split; vm_compute; reflexivity.
  - apply Hf. vm_compute. discriminate.
Defined.

End CommandDetection.

Section GenerationFacts.

Import Ollama.

Variable OLLAMA_MODEL : string.
Variable OLLAMA_HOST : string.
Variable post : string → Payload → HttpOutcome.
Variable run : list string → option string → ProcOutcome.
Variable _AVAILABLE_CMD_PREFERENCE : list string.

Implicit Types (cmd model prompt out : string).

Lemma try_flags_return cmd model prompt flags out :
  try_flags run cmd model prompt flags = Return out → cli_answer run cmd model out.
Proof.
  induction flags as [|flag flags IH]; simpl; [discriminate|].
  destruct (run ["ollama"; cmd; model; flag; prompt] None)
    as [rc so se| |] eqn:Hrun; try discriminate.
  destruct (bool_decide (rc ≠ 0) && unknown_flag (Py.lower se)); [done|].
  case_bool_decide as Hout; [done|]. intros [= <-].
  split; [done|]. by exists [flag; prompt], None, rc, so, se.
Qed.

Lemma try_stdin_return cmd model prompt out :
  try_stdin run cmd model prompt = Return out → cli_answer run cmd model out.
Proof.
  unfold try_stdin.
  destruct (run ["ollama"; cmd; model] (Some prompt)) as [rc so se| |] eqn:Hrun;
    try discriminate.
  case_bool_decide; [|discriminate]. case_bool_decide as Hout; [discriminate|].
  intros [= <-]. split; [done|]. by exists [], (Some prompt), rc, so, se.
Qed.

Lemma try_command_return cmd model prompt out :
  try_command run cmd model prompt = Return out → cli_answer run cmd model out.
Proof.
  unfold try_command.
  destruct (run ["ollama"; cmd; model; prompt] None) as [rc so se| |] eqn:Hrun;
    try discriminate.
  destruct (bool_decide (rc = 0) && negb (bool_decide (Py.strip (output so se) = "")))
    eqn:Hfirst.
  - intros [= <-]. apply andb_true_iff in Hfirst as [_ Hout%negb_true_iff].
    apply bool_decide_eq_false in Hout.
    split; [done|]. by exists [prompt], None, rc, so, se.
  - destruct (bool_decide (rc ≠ 0) && unknown_command (Py.lower se)); [discriminate|].
    destruct (try_flags run cmd model prompt _) eqn:Hf.
    + intros [= <-]. by eapply try_flags_return.
    + discriminate.
    + apply try_stdin_return.
Qed.

Lemma try_commands_return cmds model prompt out :
  try_commands run cmds model prompt = Return out →
  ∃ cmd, cmd ∈ cmds ∧ cli_answer run cmd model out.
Proof.
  induction cmds as [|cmd cmds IH]; simpl; [discriminate|].
  destruct (try_command run cmd model prompt) eqn:Hc.
  - intros [= <-]. exists cmd. split; [by left|by eapply try_command_return].
  - discriminate.
  - intros (c & Hin & Ha)%IH. exists c. split; [by right|done].
Qed.

Lemma http_generate_nonempty prompt model options out :
  _ollama_http_generate OLLAMA_HOST post prompt model options = Ok out → out ≠ "".
Proof.
  unfold _ollama_http_generate. destruct (post _ _) as [msg|status text [data|e]];
    try discriminate; case_bool_decide; try discriminate; simpl.
  case_bool_decide; [discriminate|]. by intros [= <-].
Qed.

(** X24. An answer of [predict_with_ollama] is never empty. It is the
    answer of the HTTP API when that call succeeds; otherwise it is the
    stripped output of a completed call of the CLI for one of the
    detected commands, with the model asked for, or the configured model
    when none or an empty one is asked for. *)
Theorem predict_answer_origin prompt model_id options out :
  predict_with_ollama OLLAMA_MODEL OLLAMA_HOST post run _AVAILABLE_CMD_PREFERENCE
    prompt model_id options = Ok out →
  out ≠ ""
  ∧ (_ollama_http_generate OLLAMA_HOST post prompt
       (if PyText.truthy model_id then default "" model_id else OLLAMA_MODEL) options
     = Ok out
     ∨ (∃ e, _ollama_http_generate OLLAMA_HOST post prompt
               (if PyText.truthy model_id then default "" model_id else OLLAMA_MODEL)
               options = Raise e)
       ∧ ∃ cmd, cmd ∈ _AVAILABLE_CMD_PREFERENCE
                ∧ cli_answer run cmd
                    (if PyText.truthy model_id then default "" model_id else OLLAMA_MODEL)
                    out).
Proof.
  unfold predict_with_ollama.
  destruct (_ollama_http_generate _ _ _ _ _) as [o|e] eqn:Hh.
  - intros [= ->]. split; [by eapply http_generate_nonempty|by left].
  - destruct (try_commands _ _ _ _) as [o|e'|] eqn:Ht.
    + intros [= ->]. apply try_commands_return in Ht as (cmd & Hin & Ha).
      split; [apply Ha|]. right. split; [by eauto|]. by exists cmd.
    + discriminate.
    + by destruct (run ["ollama"; "--help"] None).
Qed.

(** X25. With the HTTP API failing and the CLI gone, the attempt stops
    at the first call of the first detected command and reports the
    missing CLI as a [RuntimeError]. *)
Theorem predict_without_cli prompt model_id options e :
  _ollama_http_generate OLLAMA_HOST post prompt
    (if PyText.truthy model_id then default "" model_id else OLLAMA_MODEL) options
  = Raise e →
  _AVAILABLE_CMD_PREFERENCE ≠ [] →
  (∀ argv input, run argv input = FileNotFound) →
  predict_with_ollama OLLAMA_MODEL OLLAMA_HOST post run _AVAILABLE_CMD_PREFERENCE
    prompt model_id options = Raise cli_not_found.
Proof.
  intros Hh Hne Hrun. unfold predict_with_ollama. rewrite Hh.
  destruct _AVAILABLE_CMD_PREFERENCE as [|cmd cmds]; [done|].
  simpl. unfold try_command. by rewrite Hrun.
Qed.

End GenerationFacts.

Section HostNormalisation.

Import Ollama.

Implicit Types (s t : string) (c : ascii).

Lemma chars_app s t :
  list_ascii_of_string (s ++ t) = (list_ascii_of_string s ++ list_ascii_of_string t)%list.
Proof. induction s as [|a s IH]; simpl; [done|by rewrite IH]. Qed.

Lemma chars_rev_app s t :
  list_ascii_of_string (String.rev_app s t)
  = (rev (list_ascii_of_string s) ++ list_ascii_of_string t)%list.
Proof.
  revert t. induction s as [|a s IH]; intros t; simpl; [done|].
  rewrite IH. simpl. by rewrite <- app_assoc.
Qed.

Lemma chars_rev s :
  list_ascii_of_string (String.rev s) = rev (list_ascii_of_string s).
Proof. unfold String.rev. rewrite chars_rev_app. simpl. by rewrite app_nil_r. Qed.

Lemma lstrip_char_head c s a s' : PyText.lstrip_char c s = String a s' → a ≠ c.
Proof.
  induction s as [|b s IH]; simpl; [discriminate|].
  destruct (Ascii.eqb_spec b c) as [->|Hne]; [done|]. by intros [= <- _].
Qed.

(** What [rstrip] leaves does not end with the character stripped. *)
Lemma rstrip_char_last c s t : PyText.rstrip_char c s ≠ t ++ String c "".
Proof.
  unfold PyText.rstrip_char. intros Heq.
  apply (f_equal list_ascii_of_string) in Heq.
  rewrite chars_rev, chars_app in Heq. simpl in Heq.
  apply (f_equal (@rev ascii)) in Heq.
  rewrite rev_involutive, rev_app_distr in Heq. simpl in Heq.
  destruct (PyText.lstrip_char c (String.rev s)) as [|a s'] eqn:Hs; [discriminate|].
  simpl in Heq. injection Heq as -> _. by apply lstrip_char_head in Hs.
Qed.

Lemma app_last_char s r t c :
  r ≠ "" → s ++ r = t ++ String c "" → ∃ t', r = t' ++ String c "".
Proof.
  revert t. induction s as [|a s IH]; intros t Hr; simpl.
  - eauto.
  - destruct t as [|b t]; simpl.
    + intros [= _ Heq]. destruct s; [by destruct r|discriminate].
    + intros [= _ Heq]. by eapply IH.
Qed.

Lemma chars_last s t c :
  s = t ++ String c "" → last (list_ascii_of_string s) = Some c.
Proof. intros ->. rewrite chars_app. simpl. apply last_snoc. Qed.

(** X26. What [_normalize_ollama_host] returns never ends with a slash,
    so the path appended to it is not preceded by a second one; the one
    exception is a host made of slashes alone, which becomes [http://].
    A blank host becomes the local default. *)
Theorem normalized_host_has_no_trailing_slash host :
  ((∃ t, _normalize_ollama_host host = t ++ "/") →
   _normalize_ollama_host host = "http://")
  ∧ (Py.strip host = "" → _normalize_ollama_host host = "http://127.0.0.1:11434").
Proof.
  unfold _normalize_ollama_host. split.
  - intros [t Heq]. revert Heq. case_bool_decide as Hblank.
    { intros Heq%chars_last. vm_compute in Heq. discriminate. }
    destruct (PyText.startswith "http://" (Py.strip host)
              || PyText.startswith "https://" (Py.strip host)).
    + intros Heq. by apply rstrip_char_last in Heq.
    + intros Heq.
      destruct (decide (PyText.strip_char "/" (Py.strip host) = "")) as [->|Hne]; [done|].
      apply app_last_char in Heq as [t' Heq]; [|done].
      unfold PyText.strip_char in Heq. by apply rstrip_char_last in Heq.
  - intros ->. reflexivity.
Qed.

End HostNormalisation.

(** * The loader of the command-line demo *)

Section DemoLoader.

Variable pypdf : bool.

Implicit Types (fs : gmap string Node) (p : string) (n : Node) (d : Document).

Lemma demo_load_loop_inv entries docs0 docs :
  OfflineRag.load_loop pypdf entries docs0 = Ok docs →
  (∀ x, x ∈ entries → ∃ o, OfflineRag.load_file pypdf x.1 x.2 = Ok o)
  ∧ docs = (docs0 ++ omap (OfflineRag.emitted pypdf) entries)%list.
Proof.
  revert docs0. induction entries as [|[p n] entries IH]; intros docs0; simpl.
  - intros [= <-]. split; [intros x Hx; by apply elem_of_nil in Hx|].
    by rewrite app_nil_r.
  - unfold OfflineRag.emitted at 1. simpl.
    destruct (OfflineRag.load_file pypdf p n) as [o|e] eqn:Hl; simpl; [|discriminate].
    intros H. apply IH in H as [Hall ->]. split.
    + intros x [->|Hx]%elem_of_cons; eauto.
    + destruct o; [by rewrite <- app_assoc|done].
Qed.

Lemma demo_load_file_supported p n o :
  OfflineRag.load_file pypdf p n = Ok o →
  if supported (p, n) then ∃ d, o = Some d ∧ source_of d = Some p else o = None.
Proof.
  unfold OfflineRag.load_file, supported.
  destruct n as [|f|]; simpl; [by intros [= <-]| |discriminate].
  case_bool_decide as Htext.
  - rewrite bool_decide_eq_true_2
      by (revert Htext; rewrite !elem_of_cons; tauto).
    destruct (load_text f) as [text|e]; simpl; [|discriminate].
    intros [= <-]. eexists. split; [done|].
    unfold source_of, source_document. simpl. by rewrite lookup_singleton_eq.
  - case_bool_decide as Hpdf.
    + rewrite bool_decide_eq_true_2 by (rewrite Hpdf, !elem_of_cons; tauto).
      intros [= <-]. eexists. split; [done|].
      unfold source_of, source_document. simpl. by rewrite lookup_singleton_eq.
    + rewrite bool_decide_eq_false_2; [by intros [= <-]|].
      revert Htext. rewrite !elem_of_cons. tauto.
Qed.

(** X27. The demo loader skips no supported file: when it returns, its
    Documents are, in the order of the paths, one for each regular file
    below the root whose suffix, lowered, is [.txt], [.md], [.html] or
    [.pdf], a PDF without text or without a working reader included. *)
Theorem demo_loader_one_per_file fs root docs :
  OfflineRag.load_local_documents pypdf fs root = Ok docs →
  source_of <$> docs
  = (λ x, Some x.1) <$> filter (λ x, Is_true (supported x)) (rglob_sorted fs root).
Proof.
  unfold OfflineRag.load_local_documents. intros [Hall ->]%demo_load_loop_inv.
  simpl. induction (rglob_sorted fs root) as [|[p n] entries IH]; [done|].
  destruct (Hall (p, n)) as [o Ho]; [by left|]. simpl in Ho.
  pose proof (demo_load_file_supported _ _ _ Ho) as Hs.
  rewrite filter_cons. cbn [omap]. unfold OfflineRag.emitted at 1. simpl.
  rewrite Ho. destruct (supported (p, n)).
  - destruct Hs as (d & -> & Hd). rewrite decide_True by done.
    rewrite !fmap_cons, Hd. simpl. f_equal. apply IH.
    intros x Hx. apply Hall. by right.
  - subst o. rewrite decide_False by (by intros []).
    apply IH. intros x Hx. apply Hall. by right.
Qed.

Variable PdfReader : bool.

(** One iteration of the two loaders, side by side. *)
Lemma load_file_related p n :
  match load_file PdfReader p n, OfflineRag.load_file pypdf p n with
  | Ok o, Ok o' =>
      (Py.lower (Path.suffix p) ≠ ".pdf" → o = o')
      ∧ ∀ d, o = Some d → ∃ d', o' = Some d' ∧ source_of d' = source_of d
  | Raise e, Raise e' => e = e'
  | _, _ => False
  end.
Proof.
  unfold load_file, OfflineRag.load_file.
  destruct n as [|f|]; simpl; [split; [done|]; by intros d [=]| |done].
  case_bool_decide as Htext.
  - destruct (load_text f) as [text|e]; simpl; [|done].
    split; [done|]. intros d [= <-]. eauto.
  - case_bool_decide as Hpdf.
    + destruct (load_pdf_total PdfReader p f) as [step ->]. simpl.
      destruct step as [|text]; (split; [done|]); [by intros d [=]|].
      intros d [= <-]. eexists. split; [done|].
      unfold source_of, source_document. simpl. by rewrite !lookup_singleton_eq.
    + split; [done|]. by intros d [=].
Qed.

Lemma loops_related entries docs0 ddocs0 :
  match load_loop PdfReader entries docs0, OfflineRag.load_loop pypdf entries ddocs0 with
  | Ok _, Ok _ => True
  | Raise e, Raise e' => e = e'
  | _, _ => False
  end.
Proof.
  revert docs0 ddocs0. induction entries as [|[p n] entries IH]; intros docs0 ddocs0; simpl.
  - done.
  - pose proof (load_file_related p n) as Hr.
    destruct (load_file PdfReader p n) as [o|e],
             (OfflineRag.load_file pypdf p n) as [o'|e']; simpl; try done.
    apply IH.
Qed.

Lemma emitted_sources_sublist entries :
  (source_of <$> omap (emitted PdfReader) entries)
  `sublist_of` (source_of <$> omap (OfflineRag.emitted pypdf) entries).
Proof.
  induction entries as [|[p n] entries IH]; [done|].
  cbn [omap]. unfold emitted at 1, OfflineRag.emitted at 1. simpl.
  pose proof (load_file_related p n) as Hr.
  destruct (load_file PdfReader p n) as [o|e],
           (OfflineRag.load_file pypdf p n) as [o'|e']; simpl; try done.
  destruct Hr as [_ Hr]. destruct o as [d|].
  - destruct (Hr d eq_refl) as (d' & -> & Hs). simpl. rewrite Hs.
    by apply sublist_skip.
  - destruct o' as [d'|]; simpl; [by apply sublist_cons|done].
Qed.

Lemma elem_of_demo_documents fs root docs d :
  OfflineRag.load_local_documents pypdf fs root = Ok docs →
  d ∈ docs ↔
  ∃ p f, fs !! p = Some (Reg f) ∧ Path.under root p = true
         ∧ OfflineRag.load_file pypdf p (Reg f) = Ok (Some d).
Proof.
  unfold OfflineRag.load_local_documents. intros [Hall ->]%demo_load_loop_inv. simpl.
  rewrite list_elem_of_omap. split.
  - intros ([p n] & Hin & Hem). unfold OfflineRag.emitted in Hem. simpl in Hem.
    apply elem_of_rglob_sorted in Hin as [Hp Hu].
    destruct (OfflineRag.load_file pypdf p n) as [o|] eqn:Hl; [|discriminate].
    subst o. destruct n as [|f|]; [discriminate| |discriminate]. eauto.
  - intros (p & f & Hp & Hu & Hl). exists (p, Reg f). split.
    + by apply elem_of_rglob_sorted.
    + unfold OfflineRag.emitted. simpl. by rewrite Hl.
Qed.

Lemma source_of_loaded p n d p' :
  source_of d = Some p' →
  load_file PdfReader p n = Ok (Some d) ∨ OfflineRag.load_file pypdf p n = Ok (Some d) →
  p' = p.
Proof.
  intros Hs [Hl|Hl].
  - apply load_file_source in Hl. unfold source_of in Hs.
    rewrite Hl, lookup_singleton_eq in Hs. congruence.
  - pose proof (demo_load_file_supported _ _ _ Hl) as Hd.
    destruct (supported (p, n)); [|done].
    destruct Hd as (d' & [= <-] & Hd). congruence.
Qed.

(** X28. The demo loader and the indexer's loader fail on the same
    roots, with the same error. When they return, the sources of the
    indexer's Documents are among those of the demo's, in the same order,
    and the two agree on every Document that does not come from a PDF:
    they differ only in which PDFs they keep and what they put for them. *)
Theorem loaders_differ_on_pdfs_only fs root :
  match load_local_documents PdfReader fs root,
        OfflineRag.load_local_documents pypdf fs root with
  | Ok docs, Ok ddocs =>
      (source_of <$> docs) `sublist_of` (source_of <$> ddocs)
      ∧ ∀ d p, source_of d = Some p → Py.lower (Path.suffix p) ≠ ".pdf" →
               (d ∈ docs ↔ d ∈ ddocs)
  | Raise e, Raise e' => e = e'
  | _, _ => False
  end.
Proof.
  pose proof (loops_related (rglob_sorted fs root) [] []) as Hr.
  fold (load_local_documents PdfReader fs root) in Hr.
  fold (OfflineRag.load_local_documents pypdf fs root) in Hr.
  destruct (load_local_documents PdfReader fs root) as [docs|e] eqn:Ha,
           (OfflineRag.load_local_documents pypdf fs root) as [ddocs|e'] eqn:Hd;
    try done.
  split.
  - apply load_loop_inv in Ha as [_ ->]. apply demo_load_loop_inv in Hd as [_ ->].
    apply emitted_sources_sublist.
  - intros d p Hs Hsuf.
    rewrite (elem_of_documents _ _ _ _ d Ha), (elem_of_demo_documents _ _ _ d Hd).
    split; intros (q & f & Hq & Hu & Hl); exists q, f; (split; [done|]); (split; [done|]).
    + assert (p = q) as <- by (eapply source_of_loaded; eauto).
      pose proof (load_file_related p (Reg f)) as Hrel. rewrite Hl in Hrel.
      destruct (OfflineRag.load_file pypdf p (Reg f)); [|done].
      destruct Hrel as [Heq _]. by rewrite <- Heq.
    + assert (p = q) as <- by (eapply source_of_loaded; eauto).
      pose proof (load_file_related p (Reg f)) as Hrel. rewrite Hl in Hrel.
      destruct (load_file PdfReader p (Reg f)); [|done].
      destruct Hrel as [Heq _]. by rewrite Heq.
Qed.

End DemoLoader.

(** * The further statements on the examples *)

(** ** The built-ins and collaborators on examples *)

Example detect_on_help_text :
  Ollama._detect_ollama_commands (Ollama.Completed 0 Sample.help_text "")
  = Ok ["run"; "serve"; "pull"; "list"].
Proof. vm_compute. reflexivity. Qed.

Example normalize_on_hosts :
  Ollama._normalize_ollama_host " localhost:11434/ " = "http://localhost:11434"
  ∧ Ollama._normalize_ollama_host "https://models.lan/" = "https://models.lan"
  ∧ Ollama._normalize_ollama_host "//" = "http://"
  ∧ Ollama._normalize_ollama_host "http://" = "http:".
Proof. repeat split; vm_compute; reflexivity. Qed.

Example listed_chats_of_sample :
  (ChatStore.list_chats Sample.chats).1 = [Sample.tuesday; Sample.monday].
Proof. vm_compute. reflexivity. Qed.

Example summary_of_a_list :
  (Api.get_chat_summary "list" Sample.chats).1
  = Raise (Exception "AttributeError" "object has no attribute 'get'").
Proof. vm_compute. reflexivity. Qed.

(** ** The statements with a premise, each on an example *)

(** X1 on the example: three Documents, in the order of their paths. *)
Lemma documents_follow_paths_witness :
  ∃ docs paths,
    load_local_documents true Sample.files "/app/data" = Ok docs
    ∧ source_of <$> docs = Some <$> paths
    ∧ NoDup paths ∧ StronglySorted Path.le paths.
Proof.
  destruct (load_local_documents true Sample.files "/app/data") as [docs|e] eqn:Hl;
    [|vm_compute in Hl; discriminate Hl].
  destruct (documents_follow_paths true Sample.files "/app/data" docs Hl)
    as (paths & H1 & H2 & H3).
  exists docs, paths. auto.
Defined.

(** X2 on the example: the Document of the Markdown file. *)
Lemma documents_only_from_supported_files_witness :
  ∃ docs, load_local_documents true Sample.files "/app/data" = Ok docs
    ∧ source_document "# notes" "/app/data/notes/b.md" ∈ docs
    ∧ ∃ p f, metadata (source_document "# notes" "/app/data/notes/b.md")
             = {["source" := p]}
             ∧ Sample.files !! p = Some (Reg f)
             ∧ Path.under "/app/data" p = true
             ∧ Py.lower (Path.suffix p) ∈ [".txt"; ".md"; ".html"; ".pdf"].
Proof.
  destruct (load_local_documents true Sample.files "/app/data") as [docs|e] eqn:Hl;
    [|vm_compute in Hl; discriminate Hl].
  assert (source_document "# notes" "/app/data/notes/b.md" ∈ docs) as Hd.
  { vm_compute in Hl. injection Hl as <-. do 2 right. left. }
  exists docs. split; [reflexivity|]. split; [exact Hd|].
  exact (documents_only_from_supported_files true Sample.files "/app/data" docs _ Hl Hd).
Defined.

(** X3 on the example: without pypdf the scanned PDF has its notice. *)
Lemma pdf_placeholder_without_pypdf_witness :
  ∃ docs, load_local_documents false Sample.files "/app/data" = Ok docs
    ∧ source_document "[pypdf not installed; cannot extract PDF /app/data/d.pdf]"
        "/app/data/d.pdf" ∈ docs.
Proof.
  destruct (load_local_documents false Sample.files "/app/data") as [docs|e] eqn:Hl;
    [|vm_compute in Hl; discriminate Hl].
  exists docs. split; [reflexivity|].
  refine (pdf_placeholder_without_pypdf Sample.files "/app/data" docs "/app/data/d.pdf"
            _ Hl _ _ _); vm_compute; reflexivity.
Defined.

(** X4 on the example: new contents and a time later within the same
    second. *)
Lemma needs_reindex_content_blind_witness :
  needs_reindex "/app/data"
    (with_fs Example.indexed
       (<["/app/data/a.txt" := Example.text_file (1009 # 10) "goodbye"]>
          (fs Example.indexed)))
  = needs_reindex "/app/data" Example.indexed.
Proof.
  apply needs_reindex_content_blind. intros p _.
  destruct (decide (p = "/app/data/a.txt")) as [->|Hne].
  - vm_compute. reflexivity.
  - rewrite lookup_insert_ne by (intros Heq; apply Hne; symmetry; exact Heq).
    reflexivity.
Defined.

(** X6 on the example: a build whose store goes to another directory
    than [CHROMA_DIR]. *)
Lemma build_index_frame_witness :
  ∃ h w', build_index Example.cfg Recreate true Example.whole_text_splitter
            "/app/data" "/app/other_db" Example.fresh = (Ok h, w')
    ∧ (∃ m, manifest_file w' = MfJson m ∧ m !! "/app/data/a.txt" = Some 100)
    ∧ dir_exists w' "/app/chroma_db" = true
    ∧ chroma w' !! "/app/chroma_db" = Some [].
Proof.
  destruct (build_index Example.cfg Recreate true Example.whole_text_splitter
              "/app/data" "/app/other_db" Example.fresh) as [[h|e] w'] eqn:Hb;
    [|vm_compute in Hb; discriminate Hb].
  exists h, w'. split; [reflexivity|].
  destruct (build_index_frame Example.cfg Recreate true Example.whole_text_splitter
              "/app/data" "/app/other_db" Example.fresh h w'
              ltac:(split; [intros H; discriminate H|reflexivity])
              ltac:(split; [intros H; discriminate H|reflexivity]) Hb)
    as ((m & Hm & Hfile) & Hdir & Hhome).
  split; [|split; [exact Hdir|]].
  - exists m. split; [exact Hfile|]. vm_compute in Hm. injection Hm as <-.
    vm_compute. reflexivity.
  - refine (eq_trans (Hhome _) _); [intros H; discriminate H|reflexivity].
Defined.

(** X7 on the example: the index just built is opened, not rebuilt. *)
Lemma load_after_build_witness :
  ∃ b0 h0,
    Sample.Chroma_opens Example.indexed "/app/chroma_db" b0 = Ok h0
    ∧ load_or_build Example.cfg Recreate true Example.whole_text_splitter
        Sample.Chroma_opens "/app/data" "/app/chroma_db" Example.indexed
      = (Ok h0, Example.indexed).
Proof.
  exact (load_after_build Example.cfg Recreate true Example.whole_text_splitter
           Sample.Chroma_opens "/app/data" "/app/chroma_db" Example.fresh Example.store
           Example.indexed NoEmbedding Example.store
           ltac:(split; [intros H; discriminate H|reflexivity])
           ltac:(split; [intros H; discriminate H|reflexivity])
           ltac:(vm_compute; reflexivity) ltac:(vm_compute; reflexivity)).
Defined.

(** X8 on the example: the first check builds, the second finds nothing
    to do. *)
Lemma ensure_index_settles_witness :
  _ensure_index_up_to_date Example.cfg Recreate true Example.whole_text_splitter
    None Example.fresh = (Ok (Some Example.store), Example.indexed)
  ∧ needs_reindex "/app/data" Example.indexed = Ok false
  ∧ _ensure_index_up_to_date Example.cfg Recreate true Example.whole_text_splitter
      (Some Example.store) Example.indexed = (Ok (Some Example.store), Example.indexed).
Proof.
  split; [vm_compute; reflexivity|].
  exact (proj2 (ensure_index_settles Example.cfg Recreate true Example.whole_text_splitter
                  None Example.fresh (Some Example.store) Example.indexed
                  ltac:(split; [intros H; discriminate H|reflexivity])
                  ltac:(vm_compute; reflexivity))).
Defined.

(** X9 on the example: a query over a root without files. *)
Lemma query_fails_until_built_witness :
  query Example.cfg Recreate true Example.whole_text_splitter Example.first_k
    Example.stored_metadatas false "hello" 3 None Example.bare
  = (Raise (Exception "HTTPException"
              "No documents found to index. Add files in ./data/ and try again."),
     None, Example.bare).
Proof.
  exact (query_fails_until_built Example.cfg Recreate true Example.whole_text_splitter
           Example.first_k Example.stored_metadatas false "hello" 3 Example.bare
           (Exception "RuntimeError"
              "No documents found to index. Add files in ./data/ and try again.")
           Example.bare ltac:(vm_compute; reflexivity)).
Defined.

(** X11 on the example: a retrieval whose metadata read fails. *)
Lemma diagnostic_lists_ordered_witness :
  ∃ r, retrieve Example.cfg Example.first_k Example.metadatas_unavailable
         Example.store "hello" 3 Example.indexed = Ok r
    ∧ StronglySorted String.le (all_sources r)
    ∧ NoDup (all_sources r)
    ∧ StronglySorted String.le (data_files r)
    ∧ no_text_files r `sublist_of` data_files r.
Proof.
  destruct (retrieve Example.cfg Example.first_k Example.metadatas_unavailable
              Example.store "hello" 3 Example.indexed) as [r|e] eqn:Hr;
    [|vm_compute in Hr; discriminate Hr].
  exists r. split; [reflexivity|].
  exact (diagnostic_lists_ordered Example.cfg Example.first_k Example.metadatas_unavailable
           Example.store "hello" 3 Example.indexed r Hr).
Defined.

(** X15 on the example: the Monday chat saved again on a later day. *)
Lemma save_then_get_witness :
  ∃ chat' s',
    ChatStore.save_chat 1700172800 Sample.monday Sample.chats = (Ok chat', s')
    ∧ ChatStore.updated_at chat' = Some 1700172800
    ∧ ChatStore.get_chat "chat-1" s' = (Ok (Some (ChatStore.JChat chat')), s')
    ∧ (ChatStore.get_chat "chat-2" s').1 = (ChatStore.get_chat "chat-2" Sample.chats).1.
Proof.
  destruct (save_then_get 1700172800 Sample.monday "chat-1" Sample.chats
              eq_refl ltac:(discriminate) ltac:(vm_compute; reflexivity))
    as (chat' & s' & Hs & _ & _ & _ & Hu & Hg & Hframe).
  exists chat', s'. split; [exact Hs|]. split; [exact Hu|]. split; [exact Hg|].
  apply Hframe; [vm_compute; reflexivity|discriminate].
Defined.

(** X16 on the example: a chat with an empty id is refused. *)
Lemma save_chat_requires_id_witness :
  ChatStore.save_chat 1700172800
    {| ChatStore.id := Some ""; ChatStore.title := Some "Report";
       ChatStore.messages := Some []; ChatStore.updated_at := None |} None
  = (Raise (Exception "ValueError" "Chat must include an id"), Some ∅).
Proof.
  refine (proj2 (save_chat_requires_id 1700172800 _ None _) _).
  - intros i Hi. injection Hi as <-. reflexivity.
  - reflexivity.
Defined.


(** X19 on the example: a chat created without title or messages. *)
Lemma create_chat_stored_witness :
  ∃ chat s',
    ChatStore.create_chat "0f3a" 1700172800123 1700172800 1700172801 None None Sample.chats
    = (Ok chat, s')
    ∧ ChatStore.id chat = Some "chat-0f3a"
    ∧ ChatStore.title chat = Some "New chat"
    ∧ ChatStore.messages chat
      = Some [ChatStore._default_welcome_message 1700172800123]
    ∧ ChatStore.updated_at chat = Some 1700172801
    ∧ chat ∈ (ChatStore.list_chats s').1.
Proof.
  destruct (create_chat_stored "0f3a" 1700172800123 1700172800 1700172801 None None
              Sample.chats ltac:(vm_compute; reflexivity))
    as (chat & s' & Hc & Hid & Ht & Hm & Hu & _ & Hl).
  exists chat, s'. split; [exact Hc|]. split; [exact Hid|]. split; [exact Ht|].
  split; [exact Hm|]. split; [exact Hu|exact Hl].
Defined.


(** X24 on the example: the API is down and the CLI answers [run]. *)
Lemma predict_answer_origin_witness :
  Ollama.predict_with_ollama "gemma3" "" Sample.post_down Sample.run_cli
    ["run"; "serve"; "pull"; "list"] "Capital of France?" None None = Ok "Paris."
  ∧ ∃ cmd, cmd ∈ ["run"; "serve"; "pull"; "list"]
           ∧ Ollama.cli_answer Sample.run_cli cmd "gemma3" "Paris.".
Proof.
  split; [vm_compute; reflexivity|].
  destruct (predict_answer_origin "gemma3" "" Sample.post_down Sample.run_cli
              ["run"; "serve"; "pull"; "list"] "Capital of France?" None None "Paris."
              ltac:(vm_compute; reflexivity)) as [_ [Hhttp|[_ Hcli]]].
  - vm_compute in Hhttp. discriminate Hhttp.
  - exact Hcli.
Defined.

(** X25 on the example: the API is down and there is no CLI. *)
Lemma predict_without_cli_witness :
  Ollama.predict_with_ollama "gemma3" "" Sample.post_down Sample.run_absent
    ["run"; "predict"; "generate"] "Capital of France?" None None
  = Raise Ollama.cli_not_found.
Proof.
  refine (predict_without_cli "gemma3" "" Sample.post_down Sample.run_absent
            ["run"; "predict"; "generate"] "Capital of France?" None None _ _ _ _).
  - vm_compute. reflexivity.
  - discriminate.
  - reflexivity.
Defined.

(** X27 on the example: the demo loader keeps the scanned PDF. *)
Lemma demo_loader_one_per_file_witness :
  ∃ docs, OfflineRag.load_local_documents true Sample.files "/app/data" = Ok docs
    ∧ source_of <$> docs
      = [Some "/app/data/a.txt"; Some "/app/data/c.pdf"; Some "/app/data/d.pdf";
         Some "/app/data/notes/b.md"].
Proof.
  destruct (OfflineRag.load_local_documents true Sample.files "/app/data")
    as [docs|e] eqn:Hl; [|vm_compute in Hl; discriminate Hl].
  exists docs. split; [reflexivity|].
  rewrite (demo_loader_one_per_file true Sample.files "/app/data" docs Hl).
  vm_compute. reflexivity.
Defined.
